(** * lmdb_ext: lifetimes and validity of the LMDB binding

    A shallow embedding of [ext/lmdb_ext/lmdb_ext.c].  The C structs live
    in typed heaps indexed by address, the engine ([lmdb.h]) is an oracle
    whose calls are recorded in order, and every wrapper function is a
    computation in a state-and-exception monad. *)

From stdpp Require Import gmap strings list.
From Stdlib Require Import ZArith.

Set Warnings "-register-all".

(** ** Machine integers *)

(** C [int]: 32 bits, two's complement, wrap-around written out. *)
Definition INT_MIN : Z := (- 2 ^ 31)%Z.
Definition INT_MAX : Z := (2 ^ 31 - 1)%Z.
Definition int_wrap (z : Z) : Z := ((z + 2 ^ 31) mod 2 ^ 32 - 2 ^ 31)%Z.

(** C [unsigned int] and [mode_t]: 32 bits, unsigned. *)
Definition uint_wrap (z : Z) : Z := (z mod 2 ^ 32)%Z.

(** The octal literal [0755]. *)
Definition mode_0755 : Z := (7 * 64 + 5 * 8 + 5)%Z.

(** C [size_t]: 64 bits, unsigned. *)
Definition size_wrap (z : Z) : Z := (z mod 2 ^ 64)%Z.

(** A pointer handed out by the engine; [NULL] is address 0. *)
Definition NULL : N := 0%N.

(** Environment flags of [lmdb.h]. *)
Definition MDB_FIXEDMAP : Z := 0x01.
Definition MDB_NOSUBDIR : Z := 0x4000.
Definition MDB_NOSYNC : Z := 0x10000.
Definition MDB_RDONLY : Z := 0x20000.
Definition MDB_NOMETASYNC : Z := 0x40000.
Definition MDB_WRITEMAP : Z := 0x80000.
Definition MDB_MAPASYNC : Z := 0x100000.

Definition ENV_FLAGS : Z :=
  Z.lor MDB_FIXEDMAP
    (Z.lor MDB_NOSUBDIR
       (Z.lor MDB_NOSYNC
          (Z.lor MDB_RDONLY
             (Z.lor MDB_NOMETASYNC (Z.lor MDB_WRITEMAP MDB_MAPASYNC))))).

(** ** Host values *)

Inductive Class :=
| cEnvironment | cStat | cInfo | cDatabase | cTransaction | cCursor.

(** A [VALUE] of the host.  [TData] is a [T_DATA] object wrapping the C
    struct at [ptr]; [RStruct] wraps a struct the engine filled in
    ([MDB_stat], [MDB_envinfo]).  Hash keys are symbols. *)
Inductive VALUE :=
| Qnil
| Qtrue
| Qfalse
| Integer (z : Z)
| RString (s : string)
| RHash (tbl : list (string * VALUE))
| TData (klass : Class) (ptr : nat)
| RStruct (klass : Class) (contents : N).

Definition NIL_P (v : VALUE) : bool :=
  match v with Qnil => true | _ => false end.

Definition RTEST (v : VALUE) : bool :=
  match v with Qnil | Qfalse => false | _ => true end.

(** What a call can raise.  [cError msg] is [rb_raise(cError, msg)];
    [MDBError code] is what [check] raises for a non-zero status (its
    class and message come from [errors.h] and [mdb_strerror]); the next
    three are raised by the host's argument conversions; [Jump] is any
    other non-local exit of a block. *)
Inductive Exception :=
| cError (msg : string)
| MDBError (code : Z)
| TypeError
| RangeError
| ArgumentError
| Jump (tag : nat).

(** ** Structs *)

Record Environment := mkEnvironment {
  env : N;
  e_refcount : Z
}.

Record Transaction := mkTransaction {
  venv : VALUE;
  environment : nat;
  vparent : VALUE;
  parent : option nat;
  refcount : Z;
  txn : N
}.

Record Database := mkDatabase {
  d_vtxn : VALUE;
  d_transaction : nat;
  dbi : N;
  open : Z
}.

Record Cursor := mkCursor {
  c_vtxn : VALUE;
  c_transaction : nat;
  cur : N
}.

(** ** The engine *)

(** One constructor per [lmdb.h] function the binding calls, with the
    arguments it passes (out-parameters left out). *)
Inductive EngineCall :=
| mdb_env_create
| mdb_env_close (e : N)
| mdb_env_stat (e : N)
| mdb_env_info (e : N)
| mdb_env_copy (e : N) (path : string)
| mdb_env_sync (e : N) (force : Z)
| mdb_env_set_maxreaders (e : N) (readers : Z)
| mdb_env_set_mapsize (e : N) (size : Z)
| mdb_env_set_maxdbs (e : N) (dbs : Z)
| mdb_env_open (e : N) (path : string) (flags mode : Z)
| mdb_env_get_flags (e : N)
| mdb_env_get_path (e : N)
| mdb_env_set_flags (e : N) (flags onoff : Z)
| mdb_txn_begin (e : N) (parent : N) (flags : Z)
| mdb_txn_env (t : N)
| mdb_txn_abort (t : N)
| mdb_txn_commit (t : N)
| mdb_txn_renew (t : N)
| mdb_txn_reset (t : N)
| mdb_dbi_open (t : N) (name : string) (flags : Z)
| mdb_dbi_close (e : N) (d : N)
| mdb_drop (t : N) (d : N) (del : Z).

(** The engine answers a call, given the calls made before it, with a
    status code and the value of its out-parameter (or returned pointer). *)
Definition Engine : Type := list EngineCall → EngineCall → Z * N.

(** An engine in which every call succeeds; the [n]-th call returns [n+1]
    in its out-parameter. *)
Definition engine_ok : Engine :=
  fun past _ => (0%Z, N.of_nat (S (length past))).

(** An engine that answers every call with status [code]. *)
Definition engine_failing (code : Z) : Engine :=
  fun past _ => (code, N.of_nat (S (length past))).

(** ** Program state *)

Record State := mkState {
  envs : gmap nat Environment;
  txns : gmap nat Transaction;
  dbs : gmap nat Database;
  curs : gmap nat Cursor;
  next : nat;
  log : list EngineCall
}.

Definition set_envs (f : gmap nat Environment → gmap nat Environment) (s : State) : State :=
  mkState (f (envs s)) (txns s) (dbs s) (curs s) (next s) (log s).
Definition set_txns (f : gmap nat Transaction → gmap nat Transaction) (s : State) : State :=
  mkState (envs s) (f (txns s)) (dbs s) (curs s) (next s) (log s).
Definition set_dbs (f : gmap nat Database → gmap nat Database) (s : State) : State :=
  mkState (envs s) (txns s) (f (dbs s)) (curs s) (next s) (log s).
Definition set_curs (f : gmap nat Cursor → gmap nat Cursor) (s : State) : State :=
  mkState (envs s) (txns s) (dbs s) (f (curs s)) (next s) (log s).
Definition set_next (n : nat) (s : State) : State :=
  mkState (envs s) (txns s) (dbs s) (curs s) n (log s).
Definition set_log (l : list EngineCall) (s : State) : State :=
  mkState (envs s) (txns s) (dbs s) (curs s) (next s) l.

(** Field assignments. *)
Definition with_env (h : N) (E : Environment) : Environment :=
  mkEnvironment h (e_refcount E).
Definition with_e_refcount (n : Z) (E : Environment) : Environment :=
  mkEnvironment (env E) n.
Definition with_refcount (n : Z) (T : Transaction) : Transaction :=
  mkTransaction (venv T) (environment T) (vparent T) (parent T) n (txn T).
Definition with_txn (h : N) (T : Transaction) : Transaction :=
  mkTransaction (venv T) (environment T) (vparent T) (parent T) (refcount T) h.
Definition with_open (o : Z) (D : Database) : Database :=
  mkDatabase (d_vtxn D) (d_transaction D) (dbi D) o.
Definition with_cur (h : N) (C : Cursor) : Cursor :=
  mkCursor (c_vtxn C) (c_transaction C) h.

(** ** The monad *)

(** [Fault]: a struct that is not allocated (freed, or of another type)
    was dereferenced.  [OutOfFuel]: a loop or recursion did not finish
    within the fuel given. *)
Inductive result (A : Type) :=
| Ok (a : A) (s : State)
| Raise (e : Exception) (s : State)
| Fault
| OutOfFuel.

Arguments Ok {A} a s.
Arguments Raise {A} e s.
Arguments Fault {A}.
Arguments OutOfFuel {A}.

Definition M (A : Type) : Type := State → result A.

Definition ret {A} (a : A) : M A := fun s => Ok a s.

Definition bind {A B} (m : M A) (k : A → M B) : M B :=
  fun s =>
    match m s with
    | Ok a s' => k a s'
    | Raise e s' => Raise e s'
    | Fault => Fault
    | OutOfFuel => OutOfFuel
    end.

Notation "x <- m ;; k" := (bind m (fun x => k))
  (at level 100, m at next level, right associativity).
Notation "m ;;; k" := (bind m (fun _ => k))
  (at level 100, right associativity).

Definition rb_raise {A} (e : Exception) : M A := fun s => Raise e s.
Definition fault {A} : M A := fun _ => Fault.
Definition modify (f : State → State) : M unit := fun s => Ok tt (f s).

(** A block handed to a method: host code run on the yielded value. *)
Definition Block : Type := VALUE → M VALUE.

(** [rb_protect(rb_yield, v, &state)]: run the block and catch any
    non-local exit instead of propagating it. *)
Definition rb_protect (blk : Block) (v : VALUE) : M (Exception + VALUE) :=
  fun s =>
    match blk v s with
    | Ok r s' => Ok (inr r) s'
    | Raise e s' => Ok (inl e) s'
    | Fault => Fault
    | OutOfFuel => OutOfFuel
    end.

(** [rb_ensure(rb_yield, v, e_proc, v)]: run the block, then [e_proc] on
    every exit path; a raise from [e_proc] replaces the pending outcome. *)
Definition rb_ensure (blk : Block) (v : VALUE) (e_proc : VALUE → M VALUE) : M VALUE :=
  fun s =>
    match blk v s with
    | Ok r s' => (e_proc v ;;; ret r) s'
    | Raise e s' => (e_proc v ;;; rb_raise e) s'
    | Fault => Fault
    | OutOfFuel => OutOfFuel
    end.

(** ** Host conversions *)

(** [Data_Get_Struct]: only the [T_DATA] tag is checked, not the class. *)
Definition Data_Get_Struct (obj : VALUE) : M nat :=
  match obj with
  | TData _ p => ret p
  | _ => rb_raise TypeError
  end.

(** [NUM2INT]: an Integer in the range of [int], else [RangeError];
    anything that is not a number raises [TypeError]. *)
Definition NUM2INT (v : VALUE) : M Z :=
  match v with
  | Integer z =>
      if ((INT_MIN <=? z) && (z <=? INT_MAX))%Z then ret z else rb_raise RangeError
  | _ => rb_raise TypeError
  end.

(** [StringValueCStr]: a String without an embedded NUL. *)
Fixpoint has_nul (s : string) : bool :=
  match s with
  | EmptyString => false
  | String c r => (Ascii.eqb c Ascii.zero) || has_nul r
  end.

Definition StringValueCStr (v : VALUE) : M string :=
  match v with
  | RString s => if has_nul s then rb_raise ArgumentError else ret s
  | _ => rb_raise TypeError
  end.

(** [rb_scan_args] with [req] mandatory and [opt] optional arguments:
    returns [argc] and the variables, the missing optional ones [Qnil]. *)
Definition rb_scan_args (req opt : nat) (argv : list VALUE) : M (nat * list VALUE) :=
  let argc := length argv in
  if (argc <? req) || (req + opt <? argc)
  then rb_raise ArgumentError
  else ret (argc, argv ++ replicate (req + opt - argc) Qnil).

Definition arg (i : nat) (vars : list VALUE) : VALUE := nth i vars Qnil.

(** [rb_hash_aref(options, ID2SYM(rb_intern(name)))]; the table of
    something that is not a Hash is read without a type check. *)
Fixpoint assoc (name : string) (tbl : list (string * VALUE)) : VALUE :=
  match tbl with
  | [] => Qnil
  | (k, v) :: r => if String.eqb k name then v else assoc name r
  end.

Definition rb_hash_aref (options : VALUE) (name : string) : M VALUE :=
  match options with
  | RHash tbl => ret (assoc name tbl)
  | _ => fault
  end.

(** [NUM2SIZET] is taken as given in the binding below.  This instance,
    used in the examples, accepts the Integers that fit [size_t]. *)
Definition NUM2SIZET_range (v : VALUE) : Exception + Z :=
  match v with
  | Integer z => if ((0 <=? z) && (z <? 2 ^ 64))%Z then inr z else inl RangeError
  | _ => inl TypeError
  end.

(** ** The binding *)

Section Binding.

(** The engine, the host's conversion to [size_t], and the C string the
    engine keeps at a pointer. *)
Variable engine : Engine.
Variable NUM2SIZET : VALUE → Exception + Z.
Variable string_at : N → string.

Definition call (c : EngineCall) : M (Z * N) :=
  fun s => Ok (engine (log s) c) (set_log (log s ++ [c]) s).

(** Heap access: a load or store through a pointer to a struct. *)
Definition load_env (p : nat) : M Environment :=
  fun s => match envs s !! p with Some E => Ok E s | None => Fault end.
Definition store_env (p : nat) (f : Environment → Environment) : M unit :=
  E <- load_env p ;; modify (set_envs (insert p (f E))).
Definition free_env (p : nat) : M unit := modify (set_envs (delete p)).

Definition load_txn (p : nat) : M Transaction :=
  fun s => match txns s !! p with Some T => Ok T s | None => Fault end.
Definition store_txn (p : nat) (f : Transaction → Transaction) : M unit :=
  T <- load_txn p ;; modify (set_txns (insert p (f T))).
Definition free_txn (p : nat) : M unit := modify (set_txns (delete p)).

Definition load_db (p : nat) : M Database :=
  fun s => match dbs s !! p with Some D => Ok D s | None => Fault end.
Definition store_db (p : nat) (f : Database → Database) : M unit :=
  D <- load_db p ;; modify (set_dbs (insert p (f D))).
Definition free_db (p : nat) : M unit := modify (set_dbs (delete p)).

Definition load_cur (p : nat) : M Cursor :=
  fun s => match curs s !! p with Some C => Ok C s | None => Fault end.
Definition store_cur (p : nat) (f : Cursor → Cursor) : M unit :=
  C <- load_cur p ;; modify (set_curs (insert p (f C))).
Definition free_cur (p : nat) : M unit := modify (set_curs (delete p)).

(** [Data_Make_Struct]: a fresh address, never handed out before. *)
Definition alloc : M nat :=
  fun s => Ok (next s) (set_next (S (next s)) s).

Definition check (code : Z) : M unit :=
  if (code =? 0)%Z then ret tt else rb_raise (MDBError code).

(** *** Environment functions *)

Definition environment_check (environment : nat) : M unit :=
  E <- load_env environment ;;
  if (env E =? NULL)%N then rb_raise (cError "Environment is closed") else ret tt.

Definition ENVIRONMENT (var : VALUE) : M nat :=
  var_env <- Data_Get_Struct var ;;
  environment_check var_env ;;;
  ret var_env.

Definition environment_deref (environment : nat) : M unit :=
  E <- load_env environment ;;
  let n := int_wrap (e_refcount E - 1) in
  store_env environment (with_e_refcount n) ;;;
  if (n =? 0)%Z then
    (if (env E =? NULL)%N then ret tt
     else (_ <- call (mdb_env_close (env E)) ;; ret tt)) ;;;
    free_env environment
  else ret tt.

Definition environment_close (self : VALUE) : M VALUE :=
  environment <- ENVIRONMENT self ;;
  E <- load_env environment ;;
  _ <- call (mdb_env_close (env E)) ;;
  store_env environment (with_env NULL) ;;;
  ret Qnil.

Definition environment_stat (self : VALUE) : M VALUE :=
  environment <- ENVIRONMENT self ;;
  E <- load_env environment ;;
  r <- call (mdb_env_stat (env E)) ;;
  check r.1 ;;;
  ret (RStruct cStat r.2).

Definition environment_info (self : VALUE) : M VALUE :=
  environment <- ENVIRONMENT self ;;
  E <- load_env environment ;;
  r <- call (mdb_env_info (env E)) ;;
  check r.1 ;;;
  ret (RStruct cInfo r.2).

Definition environment_copy (self path : VALUE) : M VALUE :=
  environment <- ENVIRONMENT self ;;
  E <- load_env environment ;;
  p <- StringValueCStr path ;;
  r <- call (mdb_env_copy (env E) p) ;;
  check r.1 ;;;
  ret Qnil.

Definition environment_sync (argv : list VALUE) (self : VALUE) : M VALUE :=
  environment <- ENVIRONMENT self ;;
  a <- rb_scan_args 0 1 argv ;;
  let n := a.1 in
  let force := arg 0 a.2 in
  E <- load_env environment ;;
  r <- call (mdb_env_sync (env E) (if (n =? 1) && RTEST force then 0%Z else 1%Z)) ;;
  check r.1 ;;;
  ret Qnil.

(** The pattern repeated for every [int] option of [environment_open]:
    [value = rb_hash_aref(options, ...); if (!NIL_P(value)) x = NUM2INT(value);] *)
Definition int_option (options : VALUE) (name : string) (x : Z) : M Z :=
  value <- rb_hash_aref options name ;;
  if NIL_P value then ret x else NUM2INT value.

Definition size_option (options : VALUE) (name : string) (x : Z) : M Z :=
  value <- rb_hash_aref options name ;;
  if NIL_P value then ret x
  else match NUM2SIZET value with
       | inl e => rb_raise e
       | inr z => ret (size_wrap z)
       end.

Definition environment_open (argv : list VALUE) (klass : VALUE) (blk : option Block) : M VALUE :=
  a <- rb_scan_args 1 1 argv ;;
  let n := a.1 in
  let path := arg 0 a.2 in
  let options := arg 1 a.2 in
  c <- (if n =? 2 then
          flags <- int_option options "flags" 0%Z ;;
          mode <- int_option options "mode" mode_0755 ;;
          maxreaders <- int_option options "maxreaders" (-1)%Z ;;
          maxdbs <- int_option options "maxdbs" 10%Z ;;
          mapsize <- size_option options "mapsize" 0%Z ;;
          ret (flags, mode, maxreaders, maxdbs, mapsize)
        else ret (0, mode_0755, -1, 10, 0)%Z) ;;
  let '(flags, mode, maxreaders, maxdbs, mapsize) := c in
  r <- call mdb_env_create ;;
  check r.1 ;;;
  environment <- alloc ;;
  modify (set_envs (insert environment (mkEnvironment r.2 1))) ;;;
  let venv := TData cEnvironment environment in
  (if (0 <? maxreaders)%Z then
     r1 <- call (mdb_env_set_maxreaders r.2 maxreaders) ;; check r1.1
   else ret tt) ;;;
  (if (0 <? mapsize)%Z then
     r2 <- call (mdb_env_set_mapsize r.2 mapsize) ;; check r2.1
   else ret tt) ;;;
  r3 <- call (mdb_env_set_maxdbs r.2 (if (maxdbs <=? 0)%Z then 1 else maxdbs)%Z) ;;
  check r3.1 ;;;
  p <- StringValueCStr path ;;
  r4 <- call (mdb_env_open r.2 p (uint_wrap flags) (uint_wrap mode)) ;;
  check r4.1 ;;;
  match blk with
  | Some b => rb_ensure b venv environment_close
  | None => ret venv
  end.

Definition environment_flags (self : VALUE) : M VALUE :=
  environment <- ENVIRONMENT self ;;
  E <- load_env environment ;;
  r <- call (mdb_env_get_flags (env E)) ;;
  check r.1 ;;;
  ret (Integer (Z.land (uint_wrap (Z.of_N r.2)) ENV_FLAGS)).

Definition environment_path (self : VALUE) : M VALUE :=
  environment <- ENVIRONMENT self ;;
  E <- load_env environment ;;
  r <- call (mdb_env_get_path (env E)) ;;
  check r.1 ;;;
  ret (RString (string_at r.2)).

Definition environment_set_flags (self vflags : VALUE) : M VALUE :=
  i <- NUM2INT vflags ;;
  let flags := uint_wrap i in
  environment <- ENVIRONMENT self ;;
  E <- load_env environment ;;
  r <- call (mdb_env_get_flags (env E)) ;;
  check r.1 ;;;
  let oldflags := uint_wrap (Z.of_N r.2) in
  r1 <- call (mdb_env_set_flags (env E) (Z.land oldflags ENV_FLAGS) 0) ;;
  check r1.1 ;;;
  r2 <- call (mdb_env_set_flags (env E) flags 1) ;;
  check r2.1 ;;;
  environment_flags self.

(** The tail shared by [environment_transaction] and
    [transaction_transaction]: [if (rb_block_given_p()) { ... } return vtxn;] *)
Definition scoped (blk : option Block) (vtxn : VALUE) (transaction : nat) : M VALUE :=
  match blk with
  | Some b =>
      r <- rb_protect b vtxn ;;
      match r with
      | inl exception =>
          T <- load_txn transaction ;;
          _ <- call (mdb_txn_abort (txn T)) ;;
          store_txn transaction (with_txn NULL) ;;;
          rb_raise exception
      | inr result =>
          T <- load_txn transaction ;;
          _ <- call (mdb_txn_commit (txn T)) ;;
          store_txn transaction (with_txn NULL) ;;;
          ret result
      end
  | None => ret vtxn
  end.

Definition environment_transaction (argv : list VALUE) (self : VALUE) (blk : option Block) : M VALUE :=
  environment <- ENVIRONMENT self ;;
  a <- rb_scan_args 0 1 argv ;;
  let readonly := arg 0 a.2 in
  let flags := if (a.1 =? 1) && negb (NIL_P readonly) then MDB_RDONLY else 0%Z in
  E <- load_env environment ;;
  r <- call (mdb_txn_begin (env E) NULL flags) ;;
  check r.1 ;;;
  transaction <- alloc ;;
  modify (set_txns (insert transaction
                      (mkTransaction self environment Qnil None 1 r.2))) ;;;
  let vtxn := TData cTransaction transaction in
  store_env environment (fun E => with_e_refcount (int_wrap (e_refcount E + 1)) E) ;;;
  scoped blk vtxn transaction.

(** *** Transaction functions *)

(** The loop of [transaction_active], one iteration per unit of fuel. *)
Fixpoint transaction_active (fuel : nat) (transaction : option nat) : M bool :=
  match transaction with
  | None => ret true
  | Some p =>
      match fuel with
      | O => fun _ => OutOfFuel
      | S fuel' =>
          P <- load_txn p ;;
          if (txn P =? NULL)%N then ret false
          else transaction_active fuel' (parent P)
      end
  end.

Definition transaction_check (fuel : nat) (transaction : nat) : M unit :=
  b <- transaction_active fuel (Some transaction) ;;
  if b then ret tt else rb_raise (cError "Transaction is terminated").

Definition TRANSACTION (fuel : nat) (var : VALUE) : M nat :=
  var_txn <- Data_Get_Struct var ;;
  transaction_check fuel var_txn ;;;
  ret var_txn.

Fixpoint transaction_deref (fuel : nat) (transaction : nat) : M unit :=
  match fuel with
  | O => fun _ => OutOfFuel
  | S fuel' =>
      T <- load_txn transaction ;;
      let n := int_wrap (refcount T - 1) in
      store_txn transaction (with_refcount n) ;;;
      if (n =? 0)%Z then
        b <- transaction_active fuel (Some transaction) ;;
        (if b then (_ <- call (mdb_txn_abort (txn T)) ;; ret tt) else ret tt) ;;;
        match parent T with
        | Some p => transaction_deref fuel' p
        | None => ret tt
        end ;;;
        environment_deref (environment T) ;;;
        free_txn transaction
      else ret tt
  end.

Definition transaction_environment (fuel : nat) (self : VALUE) : M VALUE :=
  transaction <- TRANSACTION fuel self ;;
  T <- load_txn transaction ;;
  ret (venv T).

Definition transaction_parent (fuel : nat) (self : VALUE) : M VALUE :=
  transaction <- TRANSACTION fuel self ;;
  T <- load_txn transaction ;;
  ret (vparent T).

Definition transaction_abort (fuel : nat) (self : VALUE) : M VALUE :=
  transaction <- TRANSACTION fuel self ;;
  T <- load_txn transaction ;;
  _ <- call (mdb_txn_abort (txn T)) ;;
  store_txn transaction (with_txn NULL) ;;;
  ret Qnil.

Definition transaction_commit (fuel : nat) (self : VALUE) : M VALUE :=
  transaction <- TRANSACTION fuel self ;;
  T <- load_txn transaction ;;
  _ <- call (mdb_txn_commit (txn T)) ;;
  store_txn transaction (with_txn NULL) ;;;
  ret Qnil.

Definition transaction_renew (fuel : nat) (self : VALUE) : M VALUE :=
  transaction <- TRANSACTION fuel self ;;
  T <- load_txn transaction ;;
  _ <- call (mdb_txn_renew (txn T)) ;;
  ret Qnil.

Definition transaction_reset (fuel : nat) (self : VALUE) : M VALUE :=
  transaction <- TRANSACTION fuel self ;;
  T <- load_txn transaction ;;
  _ <- call (mdb_txn_reset (txn T)) ;;
  ret Qnil.

Definition transaction_transaction (fuel : nat) (self : VALUE) (blk : option Block) : M VALUE :=
  transaction <- TRANSACTION fuel self ;;
  T <- load_txn transaction ;;
  e <- call (mdb_txn_env (txn T)) ;;
  r <- call (mdb_txn_begin e.2 (txn T) 0) ;;
  check r.1 ;;;
  child <- alloc ;;
  modify (set_txns (insert child
                      (mkTransaction (venv T) (environment T) self (Some transaction) 1 r.2))) ;;;
  let vtxn := TData cTransaction child in
  store_env (environment T) (fun E => with_e_refcount (int_wrap (e_refcount E + 1)) E) ;;;
  scoped blk vtxn child.

(** *** Database functions *)

Definition database_check (fuel : nat) (database : nat) : M unit :=
  D <- load_db database ;;
  transaction_check fuel (d_transaction D) ;;;
  if (open D =? 0)%Z then rb_raise (cError "Database is closed") else ret tt.

Definition DATABASE (fuel : nat) (var : VALUE) : M nat :=
  var_db <- Data_Get_Struct var ;;
  database_check fuel var_db ;;;
  ret var_db.

Definition database_transaction (fuel : nat) (self : VALUE) : M VALUE :=
  database <- DATABASE fuel self ;;
  D <- load_db database ;;
  ret (d_vtxn D).

Definition database_free (fuel : nat) (database : nat) : M unit :=
  D <- load_db database ;;
  (if (open D =? 0)%Z then ret tt
   else
     T <- load_txn (d_transaction D) ;;
     E <- load_env (environment T) ;;
     _ <- call (mdb_dbi_close (env E) (dbi D)) ;;
     ret tt) ;;;
  transaction_deref fuel (d_transaction D) ;;;
  free_db database.

Definition database_open (fuel : nat) (argv : list VALUE) (self : VALUE) : M VALUE :=
  transaction <- TRANSACTION fuel self ;;
  a <- rb_scan_args 1 1 argv ;;
  let n := a.1 in
  let vname := arg 0 a.2 in
  let vflags := arg 1 a.2 in
  T <- load_txn transaction ;;
  name <- StringValueCStr vname ;;
  flags <- (if n =? 3 then NUM2INT vflags else ret 0%Z) ;;
  r <- call (mdb_dbi_open (txn T) name (uint_wrap flags)) ;;
  check r.1 ;;;
  database <- alloc ;;
  modify (set_dbs (insert database (mkDatabase self transaction r.2 1))) ;;;
  let vdb := TData cDatabase database in
  store_txn transaction (fun T => with_refcount (int_wrap (refcount T + 1)) T) ;;;
  ret vdb.

Definition database_close (fuel : nat) (self : VALUE) : M VALUE :=
  database <- DATABASE fuel self ;;
  D <- load_db database ;;
  T <- load_txn (d_transaction D) ;;
  E <- load_env (environment T) ;;
  _ <- call (mdb_dbi_close (env E) (dbi D)) ;;
  store_db database (with_open 0) ;;;
  ret Qnil.

Definition database_drop (fuel : nat) (self vtxn : VALUE) : M VALUE :=
  database <- DATABASE fuel self ;;
  transaction <- TRANSACTION fuel vtxn ;;
  T <- load_txn transaction ;;
  D <- load_db database ;;
  r <- call (mdb_drop (txn T) (dbi D) 1) ;;
  check r.1 ;;;
  store_db database (with_open 0) ;;;
  ret Qnil.

Definition database_clear (fuel : nat) (self vtxn : VALUE) : M VALUE :=
  database <- DATABASE fuel self ;;
  transaction <- TRANSACTION fuel vtxn ;;
  T <- load_txn transaction ;;
  D <- load_db database ;;
  r <- call (mdb_drop (txn T) (dbi D) 0) ;;
  check r.1 ;;;
  ret Qnil.

(** *** Cursor functions *)

Definition cursor_check (fuel : nat) (cursor : nat) : M unit :=
  C <- load_cur cursor ;;
  transaction_check fuel (c_transaction C) ;;;
  if (cur C =? NULL)%N then rb_raise (cError "Cursor is closed") else ret tt.

End Binding.

(** ** Validity chains *)

(** [chain s t Ts]: following [parent] from the struct at [t] reaches a
    root through allocated structs, each at a smaller address than its
    child (a parent is allocated before its children); [Ts] are the
    structs met on the way, the one at [t] first. *)
Inductive chain (s : State) : nat → list Transaction → Prop :=
| chain_root t T :
    txns s !! t = Some T → parent T = None → chain s t [T]
| chain_child t T p Ts :
    txns s !! t = Some T → parent T = Some p → p < t →
    chain s p Ts → chain s t (T :: Ts).

Definition handle_set (T : Transaction) : bool := negb (txn T =? NULL)%N.

(** Activity as the code computes it: the own handle and every
    ancestor's handle are set. *)
Definition handles_set (Ts : list Transaction) : bool := forallb handle_set Ts.

(** Activity with the root case of the specification: a root is active
    only while its Environment is open. *)
Inductive active_as_specified (s : State) : nat → Prop :=
| specified_root t T E :
    txns s !! t = Some T → txn T ≠ NULL → parent T = None →
    envs s !! environment T = Some E → env E ≠ NULL →
    active_as_specified s t
| specified_child t T p :
    txns s !! t = Some T → txn T ≠ NULL → parent T = Some p →
    active_as_specified s p →
    active_as_specified s t.

(** ** Example runs *)

Definition initial : State := mkState ∅ ∅ ∅ ∅ 0 [].

(** The state a call leaves behind, whether it returns or raises. *)
Definition exec {A} (m : M A) (s : State) : State :=
  match m s with
  | Ok _ s' | Raise _ s' => s'
  | Fault | OutOfFuel => s
  end.

(** [env = LMDB.open("/db")]: the Environment is at address 0. *)
Definition s_open : State :=
  exec (environment_open engine_ok NUM2SIZET_range [RString "/db"] Qnil None) initial.

(** [txn = env.transaction]: the root Transaction is at address 1. *)
Definition s_root : State :=
  exec (environment_transaction engine_ok [] (TData cEnvironment 0) None) s_open.

(** [child = txn.transaction]: the child Transaction is at address 2. *)
Definition s_child : State :=
  exec (transaction_transaction engine_ok 2 (TData cTransaction 1) None) s_root.

(** [env.close] while [txn] is still open. *)
Definition s_env_closed : State :=
  exec (environment_close engine_ok (TData cEnvironment 0)) s_root.

(** [txn.commit] on the root. *)
Definition s_committed : State :=
  exec (transaction_commit engine_ok 2 (TData cTransaction 1)) s_root.

(** [txn.commit] on the root while [child] is still open. *)
Definition s_parent_committed : State :=
  exec (transaction_commit engine_ok 2 (TData cTransaction 1)) s_child.

(** [db = txn.open("db")]: the Database is at address 2. *)
Definition s_db : State :=
  exec (database_open engine_ok 2 [RString "db"] (TData cTransaction 1)) s_root.

(** ** Outcomes named in the statements *)

Definition terminated {A} (s : State) : result A :=
  Raise (cError "Transaction is terminated") s.

Definition closed {A} (s : State) : result A :=
  Raise (cError "Environment is closed") s.

(** What [check] makes of the engine's status after a call: the call is
    recorded, and a non-zero status is raised. *)
Definition checked {A} (code : Z) (a : A) (s : State) : result A :=
  if (code =? 0)%Z then Ok a s else Raise (MDBError code) s.

(** ** Options of [environment_open], as the caller supplies them *)







(** ** The rest of the cursor and data functions *)

(** [StringValue]: a String as it is (its bytes may include NUL). *)
Definition StringValue (v : VALUE) : M string :=
  match v with
  | RString s => ret s
  | _ => rb_raise TypeError
  end.

Definition CURSOR (fuel : nat) (var : VALUE) : M nat :=
  var_cur <- Data_Get_Struct var ;;
  cursor_check fuel var_cur ;;;
  ret var_cur.

Definition cursor_transaction (fuel : nat) (self : VALUE) : M VALUE :=
  cursor <- CURSOR fuel self ;;
  C <- load_cur cursor ;;
  ret (c_vtxn C).

Definition cursor_get (fuel : nat) (self : VALUE) : M VALUE :=
  cursor <- CURSOR fuel self ;;
  ret Qnil.

Definition cursor_put (fuel : nat) (self : VALUE) : M VALUE :=
  cursor <- CURSOR fuel self ;;
  ret Qnil.

(** The engine functions that read and write tables and cursors. *)
Inductive DataCall :=
| mdb_stat (t d : N)
| mdb_get (t d : N) (key : string)
| mdb_put (t d : N) (key value : string) (flags : Z)
| mdb_del (t d : N) (key : string) (value : option string)
| mdb_cursor_open (t d : N)
| mdb_cursor_close (c : N).

(** What the engine answers to such a call: the status, the value of the
    out-parameter, and the bytes it points the result [MDB_val] at. *)
Record Reply := mkReply {
  r_status : Z;
  r_out : N;
  r_bytes : string
}.

(** Each data call is recorded with the number of lifecycle calls made
    before it, which fixes the order of all engine calls. *)
Definition DataLog : Type := list (nat * DataCall).

Definition DataEngine : Type := list EngineCall → DataLog → DataCall → Reply.

(** A data engine in which every call succeeds. *)
Definition data_ok : DataEngine :=
  fun _ past _ => mkReply 0 (N.of_nat (100 + length past)) "stored".

(** A data engine that answers every call with status [code]. *)
Definition data_failing (code : Z) : DataEngine :=
  fun _ past _ => mkReply code 0 "".

(** The program state together with the record of the data calls. *)
Record World := mkWorld {
  base : State;
  data : DataLog
}.

Inductive outcome (A : Type) :=
| Done (a : A) (w : World)
| Raised (e : Exception) (w : World)
| Faulted
| Exhausted.

Arguments Done {A} a w.
Arguments Raised {A} e w.
Arguments Faulted {A}.
Arguments Exhausted {A}.

Definition W (A : Type) : Type := World → outcome A.

Definition wret {A} (a : A) : W A := fun w => Done a w.

Definition wbind {A B} (m : W A) (k : A → W B) : W B :=
  fun w =>
    match m w with
    | Done a w' => k a w'
    | Raised e w' => Raised e w'
    | Faulted => Faulted
    | Exhausted => Exhausted
    end.

Notation "x <~ m ;; k" := (wbind m (fun x => k))
  (at level 100, m at next level, right associativity).
Notation "m ~;; k" := (wbind m (fun _ => k))
  (at level 100, right associativity).

Definition wraise {A} (e : Exception) : W A := fun w => Raised e w.

(** A computation on the program state, run inside a [World]. *)
Definition lift {A} (m : M A) : W A :=
  fun w =>
    match m (base w) with
    | Ok a s => Done a (mkWorld s (data w))
    | Raise e s => Raised e (mkWorld s (data w))
    | Fault => Faulted
    | OutOfFuel => Exhausted
    end.

(** [rb_ensure] around a block that makes data calls. *)
Definition w_rb_ensure (blk : VALUE → W VALUE) (v : VALUE)
    (e_proc : VALUE → W VALUE) : W VALUE :=
  fun w =>
    match blk v w with
    | Done r w' => (e_proc v ~;; wret r) w'
    | Raised e w' => (e_proc v ~;; wraise e) w'
    | Faulted => Faulted
    | Exhausted => Exhausted
    end.

Section Data.

Variable engine : Engine.
Variable data_engine : DataEngine.

Definition data_call (c : DataCall) : W Reply :=
  fun w =>
    Done (data_engine (log (base w)) (data w) c)
      (mkWorld (base w) (data w ++ [(length (log (base w)), c)])).

Definition database_stat (fuel : nat) (self vtxn : VALUE) : W VALUE :=
  database <~ lift (DATABASE fuel self) ;;
  transaction <~ lift (TRANSACTION fuel vtxn) ;;
  T <~ lift (load_txn transaction) ;;
  D <~ lift (load_db database) ;;
  r <~ data_call (mdb_stat (txn T) (dbi D)) ;;
  lift (check (r_status r)) ~;;
  wret (RStruct cStat (r_out r)).

Definition database_get (fuel : nat) (self vtxn vkey : VALUE) : W VALUE :=
  database <~ lift (DATABASE fuel self) ;;
  transaction <~ lift (TRANSACTION fuel vtxn) ;;
  key <~ lift (StringValue vkey) ;;
  T <~ lift (load_txn transaction) ;;
  D <~ lift (load_db database) ;;
  r <~ data_call (mdb_get (txn T) (dbi D) key) ;;
  lift (check (r_status r)) ~;;
  wret (RString (r_bytes r)).

Definition database_put (fuel : nat) (argv : list VALUE) (self : VALUE) : W VALUE :=
  a <~ lift (rb_scan_args 3 1 argv) ;;
  let n := a.1 in
  let vtxn := arg 0 a.2 in
  let vkey := arg 1 a.2 in
  let vval := arg 2 a.2 in
  let vflags := arg 3 a.2 in
  database <~ lift (DATABASE fuel self) ;;
  transaction <~ lift (TRANSACTION fuel vtxn) ;;
  key <~ lift (StringValue vkey) ;;
  value <~ lift (StringValue vval) ;;
  T <~ lift (load_txn transaction) ;;
  D <~ lift (load_db database) ;;
  flags <~ lift (if n =? 4 then NUM2INT vflags else ret 0%Z) ;;
  r <~ data_call (mdb_put (txn T) (dbi D) key value (uint_wrap flags)) ;;
  lift (check (r_status r)) ~;;
  wret Qnil.

Definition database_delete (fuel : nat) (argv : list VALUE) (self : VALUE) : W VALUE :=
  a <~ lift (rb_scan_args 2 1 argv) ;;
  let n := a.1 in
  let vtxn := arg 0 a.2 in
  let vkey := arg 1 a.2 in
  let vval := arg 2 a.2 in
  database <~ lift (DATABASE fuel self) ;;
  transaction <~ lift (TRANSACTION fuel vtxn) ;;
  key <~ lift (StringValue vkey) ;;
  T <~ lift (load_txn transaction) ;;
  D <~ lift (load_db database) ;;
  (if n =? 3 then
     value <~ lift (StringValue vval) ;;
     r <~ data_call (mdb_del (txn T) (dbi D) key (Some value)) ;;
     lift (check (r_status r))
   else
     r <~ data_call (mdb_del (txn T) (dbi D) key None) ;;
     lift (check (r_status r))) ~;;
  wret Qnil.

Definition cursor_free (fuel : nat) (cursor : nat) : W unit :=
  C <~ lift (load_cur cursor) ;;
  (if (cur C =? NULL)%N then wret tt
   else (_ <~ data_call (mdb_cursor_close (cur C)) ;; wret tt)) ~;;
  lift (transaction_deref engine fuel (c_transaction C)) ~;;
  lift (free_cur cursor).

Definition cursor_close (fuel : nat) (self : VALUE) : W VALUE :=
  cursor <~ lift (CURSOR fuel self) ;;
  C <~ lift (load_cur cursor) ;;
  _ <~ data_call (mdb_cursor_close (cur C)) ;;
  lift (store_cur cursor (with_cur NULL)) ~;;
  wret Qnil.

Definition database_cursor (fuel : nat) (self vtxn : VALUE)
    (blk : option (VALUE → W VALUE)) : W VALUE :=
  database <~ lift (DATABASE fuel self) ;;
  transaction <~ lift (TRANSACTION fuel vtxn) ;;
  T <~ lift (load_txn transaction) ;;
  D <~ lift (load_db database) ;;
  r <~ data_call (mdb_cursor_open (txn T) (dbi D)) ;;
  lift (check (r_status r)) ~;;
  cursor <~ lift alloc ;;
  lift (modify (set_curs (insert cursor (mkCursor vtxn transaction (r_out r))))) ~;;
  let vcur := TData cCursor cursor in
  lift (store_txn transaction (fun T => with_refcount (int_wrap (refcount T + 1)) T)) ~;;
  match blk with
  | Some b => w_rb_ensure b vcur (cursor_close fuel)
  | None => wret vcur
  end.

End Data.

(** ** Ancestors *)

(** [ancestor s t a]: the struct at [a] is the one at [t] or is reached
    from it by following [parent]. *)
Inductive ancestor (s : State) : nat → nat → Prop :=
| ancestor_self t : ancestor s t t
| ancestor_parent t T p a :
    txns s !! t = Some T → parent T = Some p → ancestor s p a →
    ancestor s t a.

(** More outcomes named in the statements. *)
Definition database_closed {A} (s : State) : result A :=
  Raise (cError "Database is closed") s.

Definition cursor_closed {A} (s : State) : result A :=
  Raise (cError "Cursor is closed") s.

(** [cur = db.cursor(txn)] after [s_db]: the Cursor is at address 3. *)
Definition w_cursor : World :=
  match database_cursor data_ok 2 (TData cDatabase 2) (TData cTransaction 1) None
          (mkWorld s_db []) with
  | Done _ w | Raised _ w => w
  | Faulted | Exhausted => mkWorld s_db []
  end.

(** An engine that accepts every call but [mdb_env_open], which it
    refuses with status [code]. *)
Definition engine_refusing_open (code : Z) : Engine :=
  fun past c =>
    match c with
    | mdb_env_open _ _ _ _ => (code, 0%N)
    | _ => (0%Z, N.of_nat (S (length past)))
    end.

(** ** Reasoning about the monad *)

Lemma bind_Ok {A B} (m : M A) (k : A → M B) s a s' :
  m s = Ok a s' → bind m k s = k a s'.
Proof. unfold bind. by intros ->. Qed.

Lemma bind_Raise {A B} (m : M A) (k : A → M B) s e s' :
  m s = Raise e s' → bind m k s = Raise e s'.
Proof. unfold bind. by intros ->. Qed.

Lemma load_txn_Some s p T : txns s !! p = Some T → load_txn p s = Ok T s.
Proof. unfold load_txn. by intros ->. Qed.

Lemma store_txn_Some s p f T :
  txns s !! p = Some T → store_txn p f s = Ok tt (set_txns (insert p (f T)) s).
Proof. intros H. unfold store_txn. by rewrite (bind_Ok _ _ _ _ _ (load_txn_Some _ _ _ H)). Qed.

Lemma load_env_Some s p E : envs s !! p = Some E → load_env p s = Ok E s.
Proof. unfold load_env. by intros ->. Qed.

Lemma load_db_Some s p D : dbs s !! p = Some D → load_db p s = Ok D s.
Proof. unfold load_db. by intros ->. Qed.

Lemma N_eqb_NULL h : h ≠ NULL → (h =? NULL)%N = false.
Proof. intros. by apply N.eqb_neq. Qed.

(** [rb_scan_args] returns a count between the mandatory and the total
    number of arguments. *)
Lemma rb_scan_args_count req opt argv s n vars s' :
  rb_scan_args req opt argv s = Ok (n, vars) s' → req ≤ n ≤ req + opt.
Proof.
  unfold rb_scan_args.
  destruct (length argv <? req) eqn:H1; [done|].
  destruct (req + opt <? length argv) eqn:H2; [done|].
  simpl. intros [= <- _ _].
  apply Nat.ltb_ge in H1, H2. lia.
Qed.

Example int_wrap_overflow : int_wrap (INT_MAX + 1) = INT_MIN.
Proof. reflexivity. Qed.

Example scan_three_arguments :
  rb_scan_args 1 1 [Qnil; Qnil; Qnil] initial = Raise ArgumentError initial.
Proof. reflexivity. Qed.

Example open_refused_by_engine :
  environment_open (engine_failing 13) NUM2SIZET_range [RString "/db"] Qnil None
    initial = Raise (MDBError 13) (set_log [mdb_env_create] initial).
Proof. reflexivity. Qed.

Example open_three_arguments :
  database_open engine_ok 2 [RString "db"; Integer 0; Qnil] (TData cTransaction 1)
    s_root = Raise ArgumentError s_root.
Proof. reflexivity. Qed.

(** ** The activity check *)

Lemma transaction_active_chain s t Ts fuel :
  chain s t Ts → t < fuel →
  transaction_active fuel (Some t) s = Ok (handles_set Ts) s.
Proof.
  intros Hc. revert fuel.
  induction Hc as [t T Ht Hp | t T p Ts Ht Hp Hlt Hc IH]; intros fuel Hf;
    (destruct fuel as [|fuel]; [lia|]); simpl;
    rewrite (bind_Ok _ _ _ _ _ (load_txn_Some _ _ _ Ht));
    unfold handle_set; destruct (txn T =? NULL)%N; simpl; try done.
  - rewrite Hp. by destruct fuel.
  - rewrite Hp. apply IH. lia.
Qed.

(** The walk reads [txns] only. *)
Lemma transaction_active_txns fuel o s s' :
  txns s' = txns s →
  transaction_active fuel o s' =
    match transaction_active fuel o s with
    | Ok b _ => Ok b s'
    | Raise e _ => Raise e s'
    | Fault => Fault
    | OutOfFuel => OutOfFuel
    end.
Proof.
  intros Heq. revert o.
  induction fuel as [|fuel IH]; intros [p|]; simpl; try done.
  unfold bind, load_txn. rewrite Heq.
  destruct (txns s !! p) as [P|]; [|done].
  destruct (txn P =? NULL)%N; [done|]. apply IH.
Qed.

(** C1, as the code has it: the activity check walks the chain of
    [parent] pointers and returns true iff the transaction's own handle
    is set and its parent is active, recursively; a root, which has no
    parent, is active iff its own handle is set.  The Environment is not
    consulted: whatever happens to the Environment structs, the check
    gives the same answer.  [transaction_check] raises "Transaction is
    terminated" exactly when the answer is false. *)
Theorem transaction_active_walks_chain s t T Ts fuel :
  chain s t (T :: Ts) → t < fuel →
  transaction_active fuel (Some t) s = Ok (handles_set (T :: Ts)) s
  ∧ (handles_set (T :: Ts) = true ↔
       txn T ≠ NULL ∧
       match parent T with
       | None => True
       | Some p => transaction_active fuel (Some p) s = Ok true s
       end)
  ∧ transaction_check fuel t s =
      (if handles_set (T :: Ts) then Ok tt s
       else Raise (cError "Transaction is terminated") s)
  ∧ ∀ f, transaction_active fuel (Some t) (set_envs f s) =
           Ok (handles_set (T :: Ts)) (set_envs f s).
Proof.
  intros Hc Hf.
  pose proof (transaction_active_chain _ _ _ _ Hc Hf) as Hact.
  split; [done|]. split; [|split].
  - simpl. unfold handle_set at 1.
    rewrite andb_true_iff, negb_true_iff, N.eqb_neq.
    apply and_iff_compat_l.
    inversion Hc as [? ? Ht Hp | ? ? p ? Ht Hp Hlt Hc']; subst; rewrite Hp.
    + done.
    + rewrite (transaction_active_chain _ _ _ fuel Hc') by lia.
      split; [by intros ->|by intros [= ->]].
  - unfold transaction_check. rewrite (bind_Ok _ _ _ _ _ Hact).
    by destruct (handles_set (T :: Ts)).
  - intros f. rewrite (transaction_active_txns fuel (Some t) s) by done.
    by rewrite Hact.
Qed.

Lemma transaction_active_walks_chain_witness :
  transaction_active 3 (Some 2) s_child = Ok true s_child.
Proof.
  pose (T2 := mkTransaction (TData cEnvironment 0) 0 (TData cTransaction 1) (Some 1) 1 6).
  pose (T1 := mkTransaction (TData cEnvironment 0) 0 Qnil None 1 4).
  assert (Hc : chain s_child 2 [T2; T1]).
  { apply chain_child with (p := 1); [reflexivity | reflexivity | lia |].
    apply chain_root; reflexivity. }
  exact (proj1 (transaction_active_walks_chain s_child 2 T2 [T1] 3 Hc (le_n 3))).
Defined.

(** C1, as stated, fails: after [env.close] the Environment's handle is
    null, so the root transaction begun from it is not active in the
    specification's sense; yet the check answers true, the guard does
    not raise, and a guarded operation goes on to call the engine. *)
Lemma closed_environment_transaction_passes :
  envs s_env_closed !! 0 = Some (mkEnvironment NULL 2)
  ∧ ¬ active_as_specified s_env_closed 1
  ∧ transaction_active 2 (Some 1) s_env_closed = Ok true s_env_closed
  ∧ transaction_check 2 1 s_env_closed = Ok tt s_env_closed
  ∧ transaction_commit engine_ok 2 (TData cTransaction 1) s_env_closed =
      Ok Qnil (exec (transaction_commit engine_ok 2 (TData cTransaction 1)) s_env_closed)
  ∧ log (exec (transaction_commit engine_ok 2 (TData cTransaction 1)) s_env_closed) =
      log s_env_closed ++ [mdb_txn_commit 4].
Proof.
  split; [reflexivity|]. split; [|repeat split; reflexivity].
  intros H. inversion H as [t T E Ht Hh Hp He HE | t T p Ht Hh Hp Hact]; subst.
  - vm_compute in Ht. injection Ht as <-. simpl in He.
    vm_compute in He. injection He as <-. by apply HE.
  - vm_compute in Ht. injection Ht as <-. discriminate Hp.
Qed.

(** ** Guarded Transaction operations *)

Lemma TRANSACTION_active fuel k t s b :
  transaction_active fuel (Some t) s = Ok b s →
  TRANSACTION fuel (TData k t) s = if b then Ok t s else terminated s.
Proof.
  intros Hact. unfold TRANSACTION, transaction_check. simpl.
  unfold bind at 1. simpl. unfold bind at 1. rewrite (bind_Ok _ _ _ _ _ Hact).
  by destruct b.
Qed.

Section Guarded.

Variable engine : Engine.

(** C4, as the code has it: every Transaction method, [environment] and
    [parent] included, starts with the [TRANSACTION] guard.  On a chain
    that is not active each of them raises "Transaction is terminated"
    before anything else happens (the state, and with it the list of
    engine calls, is untouched); on an active chain [environment] and
    [parent] return the stored objects. *)
Theorem transaction_methods_guarded fuel s t k T argv blk :
  txns s !! t = Some T →
  let self := TData k t in
  (transaction_active fuel (Some t) s = Ok false s →
     database_open engine fuel argv self s = terminated s
     ∧ transaction_abort engine fuel self s = terminated s
     ∧ transaction_commit engine fuel self s = terminated s
     ∧ transaction_reset engine fuel self s = terminated s
     ∧ transaction_renew engine fuel self s = terminated s
     ∧ transaction_transaction engine fuel self blk s = terminated s
     ∧ transaction_environment fuel self s = terminated s
     ∧ transaction_parent fuel self s = terminated s)
  ∧ (transaction_active fuel (Some t) s = Ok true s →
     transaction_environment fuel self s = Ok (venv T) s
     ∧ transaction_parent fuel self s = Ok (vparent T) s).
Proof.
  intros Ht self. split; intros Hact;
    pose proof (TRANSACTION_active fuel k t s _ Hact) as HT; simpl in HT.
  - unfold database_open, transaction_abort, transaction_commit,
      transaction_reset, transaction_renew, transaction_transaction,
      transaction_environment, transaction_parent.
    repeat split; apply bind_Raise; exact HT.
  - unfold transaction_environment, transaction_parent.
    rewrite !(bind_Ok _ _ _ _ _ HT), !(bind_Ok _ _ _ _ _ (load_txn_Some _ _ _ Ht)).
    done.
Qed.

(** C5: on an active Transaction [commit] and [abort] hand the handle
    to the engine and set it to null; every other field of the
    Transaction, every other Transaction, and all Environments,
    Databases and Cursors are as before.  On a chain that is not active
    both raise "Transaction is terminated" and change nothing. *)
Theorem commit_abort_null_own_handle fuel s t k T :
  txns s !! t = Some T →
  let self := TData k t in
  let ended call :=
    mkState (envs s) (<[t := with_txn NULL T]> (txns s)) (dbs s) (curs s)
      (next s) (log s ++ [call (txn T)]) in
  (transaction_active fuel (Some t) s = Ok true s →
     transaction_commit engine fuel self s = Ok Qnil (ended mdb_txn_commit)
     ∧ transaction_abort engine fuel self s = Ok Qnil (ended mdb_txn_abort))
  ∧ (transaction_active fuel (Some t) s = Ok false s →
     transaction_commit engine fuel self s = terminated s
     ∧ transaction_abort engine fuel self s = terminated s).
Proof.
  intros Ht self ended. split; intros Hact;
    pose proof (TRANSACTION_active fuel k t s _ Hact) as HT; simpl in HT;
    unfold transaction_commit, transaction_abort.
  - rewrite !(bind_Ok _ _ _ _ _ HT), !(bind_Ok _ _ _ _ _ (load_txn_Some _ _ _ Ht)).
    unfold bind, call, store_txn, bind, load_txn, modify; simpl.
    rewrite Ht. done.
  - split; apply bind_Raise; exact HT.
Qed.

End Guarded.

Lemma transaction_methods_guarded_witness :
  transaction_environment 3 (TData cTransaction 2) s_parent_committed =
    terminated s_parent_committed
  ∧ transaction_parent 3 (TData cTransaction 2) s_parent_committed =
    terminated s_parent_committed.
Proof.
  pose (T2 := mkTransaction (TData cEnvironment 0) 0 (TData cTransaction 1) (Some 1) 1 6).
  destruct (transaction_methods_guarded engine_ok 3 s_parent_committed 2
              cTransaction T2 [] None eq_refl) as [H _].
  destruct (H eq_refl) as (_ & _ & _ & _ & _ & _ & He & Hp).
  exact (conj He Hp).
Defined.

(** C4, as stated, fails: after [txn.commit] the methods [environment]
    and [parent] do not succeed on the terminated transaction, they
    raise "Transaction is terminated" like every other method. *)
Lemma environment_parent_raise_when_terminated :
  txns s_committed !! 1 =
    Some (mkTransaction (TData cEnvironment 0) 0 Qnil None 1 NULL)
  ∧ transaction_environment 2 (TData cTransaction 1) s_committed =
      Raise (cError "Transaction is terminated") s_committed
  ∧ transaction_parent 2 (TData cTransaction 1) s_committed =
      Raise (cError "Transaction is terminated") s_committed.
Proof. repeat split; reflexivity. Qed.

Lemma commit_abort_null_own_handle_witness :
  transaction_commit engine_ok 2 (TData cTransaction 1) s_root =
    Ok Qnil s_committed
  ∧ transaction_abort engine_ok 2 (TData cTransaction 1) s_committed =
    terminated s_committed.
Proof.
  pose (T1 := mkTransaction (TData cEnvironment 0) 0 Qnil None 1 4).
  destruct (commit_abort_null_own_handle engine_ok 2 s_root 1 cTransaction T1 eq_refl)
    as [H _].
  destruct (H eq_refl) as [Hc _].
  pose (T1' := mkTransaction (TData cEnvironment 0) 0 Qnil None 1 NULL).
  destruct (commit_abort_null_own_handle engine_ok 2 s_committed 1 cTransaction T1' eq_refl)
    as [_ H'].
  destruct (H' eq_refl) as [_ Ha].
  split; [|exact Ha].
  etransitivity; [exact Hc|]. reflexivity.
Defined.

(** ** Opening a Database *)

Section Tables.

Variable engine : Engine.

(** C6 fails on the code: [database_open] reads its arguments with
    [rb_scan_args(argc, argv, "11", ...)], which returns 1 or 2, and
    converts the flags only when that count is 3.  So whatever flags
    value the caller supplies, the engine's [mdb_dbi_open] receives
    flags 0; the supplied value is not even converted. *)
Theorem database_open_drops_flags fuel s t k T name vflags :
  txns s !! t = Some T →
  transaction_active fuel (Some t) s = Ok true s →
  has_nul name = false →
  let self := TData k t in
  let request := mdb_dbi_open (txn T) name 0 in
  let answer := engine (log s) request in
  database_open engine fuel [RString name; vflags] self s =
    if (answer.1 =? 0)%Z then
      Ok (TData cDatabase (next s))
        (mkState (envs s)
           (<[t := with_refcount (int_wrap (refcount T + 1)) T]> (txns s))
           (<[next s := mkDatabase self t answer.2 1]> (dbs s))
           (curs s) (S (next s)) (log s ++ [request]))
    else Raise (MDBError answer.1) (set_log (log s ++ [request]) s).
Proof.
  intros Ht Hact Hn self request answer.
  pose proof (TRANSACTION_active fuel k t s _ Hact) as HT; simpl in HT.
  unfold database_open. rewrite (bind_Ok _ _ _ _ _ HT).
  unfold bind at 1. simpl. rewrite (bind_Ok _ _ _ _ _ (load_txn_Some _ _ _ Ht)).
  unfold bind at 1. simpl. rewrite Hn. simpl.
  unfold bind at 1. simpl. unfold bind at 1. simpl.
  unfold bind at 1. unfold check.
  change (uint_wrap 0) with 0%Z. fold request. fold answer.
  destruct (answer.1 =? 0)%Z; simpl; [|done].
  unfold bind, store_txn, bind, load_txn, modify; simpl.
  rewrite Ht. done.
Qed.

(** C8: on a usable Database, with an active transaction argument,
    [drop] asks the engine to delete the table ([mdb_drop] with [del =
    1]) and, once the engine has accepted, sets [open] to 0; [clear] asks
    the engine to empty it ([del = 0]) and leaves the Database struct as
    it was, so [open] stays set.  No other field of the Database and no
    other struct changes.  If the engine refuses, its status is raised
    and no struct changes. *)
Theorem drop_clears_open_clear_keeps_it fuel s d kd D t kt T :
  dbs s !! d = Some D → txns s !! t = Some T →
  database_check fuel d s = Ok tt s →
  transaction_active fuel (Some t) s = Ok true s →
  let request del := mdb_drop (txn T) (dbi D) del in
  let status del := (engine (log s) (request del)).1 in
  let dropped :=
    mkState (envs s) (txns s)
      (<[d := mkDatabase (d_vtxn D) (d_transaction D) (dbi D) 0]> (dbs s))
      (curs s) (next s) (log s ++ [request 1%Z]) in
  let cleared :=
    mkState (envs s) (txns s) (dbs s) (curs s) (next s) (log s ++ [request 0%Z]) in
  open D ≠ 0%Z
  ∧ database_drop engine fuel (TData kd d) (TData kt t) s =
      (if (status 1 =? 0)%Z then Ok Qnil dropped
       else Raise (MDBError (status 1%Z)) (set_log (log s ++ [request 1%Z]) s))
  ∧ database_clear engine fuel (TData kd d) (TData kt t) s =
      checked (status 0%Z) Qnil cleared.
Proof.
  intros Hd Ht Hchk Hact request status dropped cleared.
  pose proof (TRANSACTION_active fuel kt t s _ Hact) as HT; simpl in HT.
  assert (HD : DATABASE fuel (TData kd d) s = Ok d s).
  { unfold DATABASE. simpl. unfold bind at 1. simpl.
    by rewrite (bind_Ok _ _ _ _ _ Hchk). }
  split.
  - unfold database_check in Hchk.
    rewrite (bind_Ok _ _ _ _ _ (load_db_Some _ _ _ Hd)) in Hchk.
    unfold bind in Hchk.
    destruct (transaction_check fuel (d_transaction D) s); try done.
    destruct (open D =? 0)%Z eqn:Ho; [done|]. by apply Z.eqb_neq.
  - unfold database_drop, database_clear.
    rewrite !(bind_Ok _ _ _ _ _ HD), !(bind_Ok _ _ _ _ _ HT),
      !(bind_Ok _ _ _ _ _ (load_txn_Some _ _ _ Ht)),
      !(bind_Ok _ _ _ _ _ (load_db_Some _ _ _ Hd)).
    unfold bind, call, check, checked, status, request; simpl.
    split.
    + destruct (engine (log s) (mdb_drop (txn T) (dbi D) 1)) as [rc out]; simpl.
      destruct (rc =? 0)%Z; simpl; [|done].
      unfold store_db, bind, load_db, modify; simpl. by rewrite Hd.
    + destruct (engine (log s) (mdb_drop (txn T) (dbi D) 0)) as [rc out]; simpl.
      by destruct (rc =? 0)%Z.
Qed.

End Tables.

Lemma database_open_drops_flags_witness :
  database_open engine_ok 2 [RString "db"; Integer 0x40000] (TData cTransaction 1)
    s_root = Ok (TData cDatabase 2) s_db
  ∧ log s_db = log s_root ++ [mdb_dbi_open 4 "db" 0].
Proof.
  pose (T1 := mkTransaction (TData cEnvironment 0) 0 Qnil None 1 4).
  split; [|reflexivity].
  exact (database_open_drops_flags engine_ok 2 s_root 1 cTransaction T1 "db"
           (Integer 0x40000) eq_refl eq_refl eq_refl).
Defined.

Lemma drop_clears_open_clear_keeps_it_witness :
  database_clear engine_ok 2 (TData cDatabase 2) (TData cTransaction 1) s_db =
    Ok Qnil (set_log (log s_db ++ [mdb_drop 4 5 0]) s_db)
  ∧ dbs (exec (database_drop engine_ok 2 (TData cDatabase 2) (TData cTransaction 1)) s_db)
      !! 2 = Some (mkDatabase (TData cTransaction 1) 1 5 0).
Proof.
  pose (T1 := mkTransaction (TData cEnvironment 0) 0 Qnil None 2 4).
  pose (D2 := mkDatabase (TData cTransaction 1) 1 5 1).
  destruct (drop_clears_open_clear_keeps_it engine_ok 2 s_db 2 cDatabase D2 1
              cTransaction T1 eq_refl eq_refl eq_refl eq_refl) as (_ & Hd & Hc).
  split; [exact Hc|].
  unfold exec. rewrite Hd. reflexivity.
Defined.

(** ** Environment methods *)

Section Environments.

Variable engine : Engine.
Variable NUM2SIZET : VALUE → Exception + Z.
Variable string_at : N → string.

Lemma ENVIRONMENT_open s e k E :
  envs s !! e = Some E → env E ≠ NULL → ENVIRONMENT (TData k e) s = Ok e s.
Proof.
  intros He Hh. unfold ENVIRONMENT, environment_check. simpl.
  unfold bind at 1. simpl. unfold bind at 1.
  rewrite (bind_Ok _ _ _ _ _ (load_env_Some _ _ _ He)).
  by rewrite N_eqb_NULL.
Qed.

Lemma ENVIRONMENT_closed s e k E :
  envs s !! e = Some E → env E = NULL → ENVIRONMENT (TData k e) s = closed s.
Proof.
  intros He Hh. unfold ENVIRONMENT, environment_check. simpl.
  unfold bind at 1. simpl. unfold bind at 1.
  rewrite (bind_Ok _ _ _ _ _ (load_env_Some _ _ _ He)).
  by rewrite Hh.
Qed.

(** C7, as the code has it: [close] on an open Environment hands the
    handle to the engine and nulls it, the refcount staying as it was;
    a second [close] raises "Environment is closed".  With a null handle
    every accessor raises that error and changes nothing; [flags=]
    converts its argument before the guard, so it raises the closed
    error when the argument converts and the conversion's own error
    when it does not. *)
Theorem environment_close_terminal s e k E :
  envs s !! e = Some E →
  let self := TData k e in
  (env E ≠ NULL →
     let s' :=
       mkState (<[e := mkEnvironment NULL (e_refcount E)]> (envs s)) (txns s)
         (dbs s) (curs s) (next s) (log s ++ [mdb_env_close (env E)]) in
     environment_close engine self s = Ok Qnil s'
     ∧ environment_close engine self s' = closed s')
  ∧ (env E = NULL →
     environment_close engine self s = closed s
     ∧ environment_stat engine self s = closed s
     ∧ environment_info engine self s = closed s
     ∧ (∀ path, environment_copy engine self path s = closed s)
     ∧ (∀ argv, environment_sync engine argv self s = closed s)
     ∧ environment_flags engine self s = closed s
     ∧ environment_path engine string_at self s = closed s
     ∧ (∀ argv blk, environment_transaction engine argv self blk s = closed s)
     ∧ (∀ vflags z, NUM2INT vflags s = Ok z s →
          environment_set_flags engine self vflags s = closed s)
     ∧ (∀ vflags x, NUM2INT vflags s = Raise x s →
          environment_set_flags engine self vflags s = Raise x s)).
Proof.
  intros He self. split; intros Hh.
  - intros s'. split.
    + unfold environment_close.
      rewrite (bind_Ok _ _ _ _ _ (ENVIRONMENT_open _ _ k _ He Hh)),
        (bind_Ok _ _ _ _ _ (load_env_Some _ _ _ He)).
      unfold bind, call, store_env, bind, load_env, modify; simpl.
      by rewrite He.
    + unfold environment_close. apply bind_Raise.
      apply ENVIRONMENT_closed with (E := mkEnvironment NULL (e_refcount E)); [|done].
      simpl. apply lookup_insert_eq.
  - pose proof (ENVIRONMENT_closed _ _ k _ He Hh) as HE.
    unfold environment_close, environment_stat, environment_info,
      environment_copy, environment_sync, environment_flags, environment_path,
      environment_transaction, environment_set_flags.
    repeat split; intros; try (apply bind_Raise; exact HE).
    + rewrite (bind_Ok _ _ _ _ _ H). apply bind_Raise; exact HE.
    + by apply bind_Raise.
Qed.

(** C10: on an open Environment [sync] passes the engine [force = 0]
    when it is given one truthy argument, and [force = 1] when it is
    given no argument or a falsy one ([nil] or [false]); the engine's
    status is then checked. *)
Theorem environment_sync_negates_force s e k E argv :
  envs s !! e = Some E → env E ≠ NULL → length argv ≤ 1 →
  let requested := match argv with [force] => RTEST force | _ => false end in
  let request := mdb_env_sync (env E) (if requested then 0 else 1) in
  environment_sync engine argv (TData k e) s =
    checked (engine (log s) request).1 Qnil (set_log (log s ++ [request]) s).
Proof.
  intros He Hh Hlen requested request.
  unfold environment_sync.
  rewrite (bind_Ok _ _ _ _ _ (ENVIRONMENT_open _ _ k _ He Hh)).
  destruct argv as [|force [|? ?]]; simpl in Hlen; [| |lia].
  - unfold bind at 1. simpl.
    rewrite (bind_Ok _ _ _ _ _ (load_env_Some _ _ _ He)).
    unfold bind, call, check, checked; simpl.
    subst request requested. simpl.
    destruct (engine (log s) (mdb_env_sync (env E) 1)) as [rc out]; simpl.
    by destruct (rc =? 0)%Z.
  - unfold bind at 1. simpl.
    rewrite (bind_Ok _ _ _ _ _ (load_env_Some _ _ _ He)).
    unfold bind, call, check, checked; simpl.
    subst request requested. unfold arg. simpl.
    destruct (RTEST force);
      match goal with |- context [engine ?l ?c] =>
        destruct (engine l c) as [rc out] end; simpl;
      by destruct (rc =? 0)%Z.
Qed.







End Environments.

Lemma environment_close_terminal_witness :
  environment_close engine_ok (TData cEnvironment 0) s_open = Ok Qnil
    (mkState (<[0 := mkEnvironment NULL 1]> (envs s_open)) (txns s_open) (dbs s_open)
       (curs s_open) (next s_open) (log s_open ++ [mdb_env_close 1]))
  ∧ environment_stat engine_ok (TData cEnvironment 0) s_env_closed = closed s_env_closed
  ∧ environment_set_flags engine_ok (TData cEnvironment 0) (Integer 1) s_env_closed =
      closed s_env_closed
  ∧ environment_set_flags engine_ok (TData cEnvironment 0) Qnil s_env_closed =
      Raise TypeError s_env_closed.
Proof.
  destruct (environment_close_terminal engine_ok (fun _ => EmptyString) s_open 0
              cEnvironment (mkEnvironment 1 1) eq_refl) as [H _].
  destruct (H ltac:(discriminate)) as [Hc _].
  destruct (environment_close_terminal engine_ok (fun _ => EmptyString) s_env_closed 0
              cEnvironment (mkEnvironment NULL 2) eq_refl) as [_ H'].
  destruct (H' eq_refl) as (_ & Hs & _ & _ & _ & _ & _ & _ & Hconv & Hnot).
  split; [exact Hc|]. split; [exact Hs|]. split.
  - exact (Hconv (Integer 1) 1%Z eq_refl).
  - exact (Hnot Qnil TypeError eq_refl).
Defined.

(** Where the code departs from C7: on a closed Environment
    [env.flags = nil] raises the conversion's [TypeError], and
    [env.flags = 2**31] its [RangeError], not the closed error;
    [flags=] is the one accessor that converts its argument before the
    guard. *)
Lemma set_flags_converts_before_guard :
  envs s_env_closed !! 0 = Some (mkEnvironment NULL 2)
  ∧ environment_set_flags engine_ok (TData cEnvironment 0) Qnil s_env_closed =
      Raise TypeError s_env_closed
  ∧ environment_set_flags engine_ok (TData cEnvironment 0) Qnil s_env_closed ≠
      Raise (cError "Environment is closed") s_env_closed
  ∧ environment_set_flags engine_ok (TData cEnvironment 0) (Integer (2 ^ 31))
      s_env_closed = Raise RangeError s_env_closed.
Proof.
  split; [reflexivity|]. split; [reflexivity|]. split; [discriminate|reflexivity].
Qed.

Lemma environment_sync_negates_force_witness :
  environment_sync engine_ok [Qtrue] (TData cEnvironment 0) s_open =
    Ok Qnil (set_log (log s_open ++ [mdb_env_sync 1 0]) s_open)
  ∧ environment_sync engine_ok [] (TData cEnvironment 0) s_open =
    Ok Qnil (set_log (log s_open ++ [mdb_env_sync 1 1]) s_open)
  ∧ environment_sync engine_ok [Qfalse] (TData cEnvironment 0) s_open =
    Ok Qnil (set_log (log s_open ++ [mdb_env_sync 1 1]) s_open).
Proof.
  assert (Hh : (1%N : N) ≠ NULL) by discriminate.
  pose (E := mkEnvironment 1 1).
  split; [|split].
  - exact (environment_sync_negates_force engine_ok s_open 0 cEnvironment E [Qtrue]
             eq_refl Hh (le_n 1)).
  - exact (environment_sync_negates_force engine_ok s_open 0 cEnvironment E []
             eq_refl Hh (le_S 0 0 (le_n 0))).
  - exact (environment_sync_negates_force engine_ok s_open 0 cEnvironment E [Qfalse]
             eq_refl Hh (le_n 1)).
Defined.


(** ** Scoped blocks *)

Section Scoped.

Variable engine : Engine.





End Scoped.



(** ** Finalization *)

Lemma int_wrap_small z : (INT_MIN ≤ z ≤ INT_MAX)%Z → int_wrap z = z.
Proof.
  unfold int_wrap, INT_MIN, INT_MAX. intros H.
  rewrite Z.mod_small; lia.
Qed.

(** A chain only reads the structs at or below its start. *)
Lemma chain_frame s s' p Ts :
  chain s p Ts → (∀ a, a ≤ p → txns s' !! a = txns s !! a) → chain s' p Ts.
Proof.
  induction 1 as [t T Ht Hp | t T q Ts Ht Hp Hlt Hc IH]; intros Hsame.
  - apply chain_root; [|done]. by rewrite Hsame.
  - apply chain_child with (p := q); [|done|done|].
    + by rewrite Hsame.
    + apply IH. intros a Ha. apply Hsame. lia.
Qed.

Section Finalization.

Variable engine : Engine.

Lemma environment_deref_counted s e E :
  envs s !! e = Some E → (1 ≤ e_refcount E ≤ INT_MAX)%Z →
  ∃ s', environment_deref engine e s = Ok tt s'
    ∧ txns s' = txns s
    ∧ envs s' !! e =
        (if (e_refcount E - 1 =? 0)%Z then None
         else Some (mkEnvironment (env E) (e_refcount E - 1))).
Proof.
  intros He Hr. unfold environment_deref.
  rewrite (bind_Ok _ _ _ _ _ (load_env_Some _ _ _ He)).
  rewrite int_wrap_small by (unfold INT_MIN, INT_MAX in *; lia).
  unfold bind at 1, store_env, bind at 1, load_env. rewrite He. simpl.
  destruct (e_refcount E - 1 =? 0)%Z.
  - destruct (env E =? NULL)%N; eexists; (split; [reflexivity|]); simpl;
      (split; [done|apply lookup_delete_eq]).
  - eexists. split; [reflexivity|]. simpl. split; [done|apply lookup_insert_eq].
Qed.

(** Releasing the struct at [t], whose chain holds [length (T :: Ts)]
    structs of the Environment at [e]: the call returns; [k] structs of
    the chain were finalized, each taking one reference off the
    Environment. *)
Lemma transaction_deref_chain e fuel :
  ∀ t T Ts s E,
    chain s t (T :: Ts) → Forall (λ T', environment T' = e) (T :: Ts) →
    envs s !! e = Some E →
    (Z.of_nat (length (T :: Ts)) ≤ e_refcount E ≤ INT_MAX)%Z → t < fuel →
    ∃ s' k, transaction_deref engine fuel t s = Ok tt s'
      ∧ k ≤ length (T :: Ts)
      ∧ (∀ a, t < a → txns s' !! a = txns s !! a)
      ∧ txns s' !! t =
          (if (int_wrap (refcount T - 1) =? 0)%Z then None
           else Some (with_refcount (int_wrap (refcount T - 1)) T))
      ∧ envs s' !! e =
          (if (e_refcount E - Z.of_nat k =? 0)%Z then None
           else Some (mkEnvironment (env E) (e_refcount E - Z.of_nat k))).
Proof.
  induction fuel as [|fuel IH]; intros t T Ts s E Hc Henv He Hr Hf; [lia|].
  assert (Ht : txns s !! t = Some T) by (by inversion Hc).
  cbn [transaction_deref].
  rewrite (bind_Ok _ _ _ _ _ (load_txn_Some _ _ _ Ht)).
  rewrite (bind_Ok _ _ _ _ _ (store_txn_Some _ _ _ _ Ht)).
  set (n := int_wrap (refcount T - 1)).
  set (s1 := set_txns (insert t (with_refcount n T)) s).
  destruct (n =? 0)%Z eqn:Hn.
  2:{ exists s1, 0. split; [done|]. simpl length in *. split; [lia|]. split; [|split].
      - intros a Ha. simpl. apply lookup_insert_ne. lia.
      - simpl. apply lookup_insert_eq.
      - simpl. rewrite Z.sub_0_r.
        destruct (e_refcount E =? 0)%Z eqn:H0; [apply Z.eqb_eq in H0; lia|].
        rewrite He. by destruct E. }
  assert (Hc1 : chain s1 t (with_refcount n T :: Ts)).
  { inversion Hc as [? ? _ Hp | ? ? p ? _ Hp Hlt Hc']; subst.
    - apply chain_root; [apply lookup_insert_eq|done].
    - apply chain_child with (p := p); [apply lookup_insert_eq|done|done|].
      apply chain_frame with (s := s); [done|].
      intros a Ha. simpl. apply lookup_insert_ne. lia. }
  rewrite (bind_Ok _ _ _ _ _ (transaction_active_chain _ _ _ (S fuel) Hc1 Hf)).
  change (handles_set (with_refcount n T :: Ts)) with (handles_set (T :: Ts)).
  set (s2 := if handles_set (T :: Ts)
             then set_log (log s1 ++ [mdb_txn_abort (txn T)]) s1 else s1).
  assert (Htx2 : txns s2 = txns s1) by (subst s2; by destruct (handles_set _)).
  assert (Hen2 : envs s2 = envs s) by (subst s2; by destruct (handles_set _)).
  assert (Hstep : ∀ k : M unit,
    ((if handles_set (T :: Ts)
      then (_ <- call engine (mdb_txn_abort (txn T)) ;; ret tt) else ret tt) ;;; k) s1
    = k s2).
  { intros k. subst s2. by destruct (handles_set (T :: Ts)). }
  rewrite Hstep. clear Hstep.
  assert (Hpar : ∃ s3 k', (match parent T with
                           | Some p => transaction_deref engine fuel p
                           | None => ret tt
                           end) s2 = Ok tt s3
            ∧ k' ≤ length Ts
            ∧ txns s3 !! t = Some (with_refcount n T)
            ∧ (∀ a, t < a → txns s3 !! a = txns s !! a)
            ∧ envs s3 !! e =
                Some (mkEnvironment (env E) (e_refcount E - Z.of_nat k'))).
  { inversion Hc as [? ? _ Hp | ? ? p ? _ Hp Hlt Hc']; subst; rewrite Hp.
    - exists s2, 0. split; [done|]. split; [simpl; lia|].
      rewrite Htx2, Hen2, He, Z.sub_0_r. simpl.
      split; [apply lookup_insert_eq|]. split; [|by destruct E].
      intros a Ha. apply lookup_insert_ne. lia.
    - destruct Ts as [|P Ts']; [inversion Hc'|].
      assert (Hc2 : chain s2 p (P :: Ts')).
      { apply chain_frame with (s := s); [done|]. intros a Ha.
        rewrite Htx2. simpl. apply lookup_insert_ne. lia. }
      destruct (IH p P Ts' s2 E Hc2) as (s3 & k' & Hd & Hk & Hfr & _ & He3).
      + by inversion Henv.
      + by rewrite Hen2.
      + simpl length in *. lia.
      + lia.
      + exists s3, k'. split; [done|]. split; [done|].
        split; [|split].
        * rewrite Hfr by lia. rewrite Htx2. simpl. apply lookup_insert_eq.
        * intros a Ha. rewrite Hfr by lia. rewrite Htx2. simpl.
          apply lookup_insert_ne. lia.
        * simpl length in *.
          destruct (e_refcount E - Z.of_nat k' =? 0)%Z eqn:H0;
            [apply Z.eqb_eq in H0; lia|done]. }
  destruct Hpar as (s3 & k' & Hd & Hk & Ht3 & Hfr3 & He3).
  rewrite (bind_Ok _ _ _ _ _ Hd).
  assert (Hrel : environment T = e) by (by inversion Henv).
  rewrite Hrel.
  destruct (environment_deref_counted s3 e _ He3) as (s4 & Hed & Htx4 & He4).
  { simpl. simpl length in *. lia. }
  rewrite (bind_Ok _ _ _ _ _ Hed).
  exists (set_txns (delete t) s4), (S k'). split; [done|].
  split; [simpl; lia|]. split; [|split].
  - intros a Ha. simpl. rewrite lookup_delete_ne by lia.
    rewrite Htx4. by apply Hfr3.
  - simpl. apply lookup_delete_eq.
  - simpl in *. rewrite He4.
    replace (e_refcount E - Z.of_nat (S k'))%Z
      with (e_refcount E - Z.of_nat k' - 1)%Z by lia.
    done.
Qed.

(** C3, as the code has it: releasing a reference only decrements the
    refcount unless it reaches zero.  When it does, the Transaction is
    finalized: an implicit abort is issued iff its validity chain is
    still active (own handle and every ancestor's handle set; a set
    handle under a terminated ancestor is not aborted); then the parent,
    if any, is released in turn, which decrements its refcount (and
    finalizes it when that reaches zero); then the Environment's
    refcount is decremented (the Environment being freed when it
    reaches zero); then the struct is freed.  Stated for a chain of
    allocated structs that belong to one Environment, whose refcount
    counts at least these structs. *)
Theorem transaction_deref_finalizes e fuel s t T Ts E :
  chain s t (T :: Ts) → Forall (λ T', environment T' = e) (T :: Ts) →
  envs s !! e = Some E →
  (Z.of_nat (length (T :: Ts)) ≤ e_refcount E ≤ INT_MAX)%Z → t < fuel →
  let n := int_wrap (refcount T - 1) in
  let s1 := set_txns (insert t (with_refcount n T)) s in
  (n ≠ 0%Z → transaction_deref engine fuel t s = Ok tt s1)
  ∧ (n = 0%Z →
     let active := handles_set (T :: Ts) in
     let s2 :=
       if active then set_log (log s ++ [mdb_txn_abort (txn T)]) s1 else s1 in
     transaction_active fuel (Some t) s = Ok active s
     ∧ ∃ s3 E3 s4,
         match parent T with
         | None => s3 = s2
         | Some p =>
             transaction_deref engine (pred fuel) p s2 = Ok tt s3
             ∧ ∃ P, txns s !! p = Some P
                 ∧ txns s3 !! p =
                     (if (int_wrap (refcount P - 1) =? 0)%Z then None
                      else Some (with_refcount (int_wrap (refcount P - 1)) P))
         end
         ∧ envs s3 !! e = Some E3
         ∧ environment_deref engine e s3 = Ok tt s4
         ∧ envs s4 !! e =
             (if (e_refcount E3 - 1 =? 0)%Z then None
              else Some (mkEnvironment (env E3) (e_refcount E3 - 1)))
         ∧ transaction_deref engine fuel t s = Ok tt (set_txns (delete t) s4)).
Proof.
  intros Hc Henv He Hr Hf n s1.
  destruct fuel as [|fuel]; [lia|].
  assert (Ht : txns s !! t = Some T) by (by inversion Hc).
  split; [intros Hn | intros Hn active s2];
    cbn [transaction_deref];
    rewrite (bind_Ok _ _ _ _ _ (load_txn_Some _ _ _ Ht)),
      (bind_Ok _ _ _ _ _ (store_txn_Some _ _ _ _ Ht));
    fold n s1.
  { apply Z.eqb_neq in Hn. by rewrite Hn. }
  assert (Hn' : (n =? 0)%Z = true) by (by apply Z.eqb_eq).
  rewrite Hn'. clear Hn'.
  split; [by apply transaction_active_chain|].
  assert (Hc1 : chain s1 t (with_refcount n T :: Ts)).
  { inversion Hc as [? ? _ Hp | ? ? p ? _ Hp Hlt Hc']; subst.
    - apply chain_root; [apply lookup_insert_eq|done].
    - apply chain_child with (p := p); [apply lookup_insert_eq|done|done|].
      apply chain_frame with (s := s); [done|].
      intros a Ha. simpl. apply lookup_insert_ne. lia. }
  rewrite (bind_Ok _ _ _ _ _ (transaction_active_chain _ _ _ (S fuel) Hc1 Hf)).
  change (handles_set (with_refcount n T :: Ts)) with active.
  assert (Htx2 : txns s2 = txns s1) by (subst s2; by destruct active).
  assert (Hen2 : envs s2 = envs s) by (subst s2; by destruct active).
  assert (Hstep : ∀ k : M unit,
    ((if active
      then (_ <- call engine (mdb_txn_abort (txn T)) ;; ret tt) else ret tt) ;;; k) s1
    = k s2).
  { intros k. subst s2. by destruct active. }
  rewrite Hstep. clear Hstep.
  assert (Hrel : environment T = e) by (by inversion Henv).
  rewrite Hrel. clear Hrel. simpl length in Hr. simpl pred.
  inversion Hc as [? ? _ Hp | ? ? p ? _ Hp Hlt Hc']; subst; rewrite Hp.
  - destruct (environment_deref_counted s2 e E) as (s4 & Hed & _ & He4).
    { by rewrite Hen2. }
    { lia. }
    exists s2, E, s4. split; [done|]. split; [by rewrite Hen2|].
    split; [done|]. split; [done|].
    unfold bind at 1, ret. by rewrite (bind_Ok _ _ _ _ _ Hed).
  - destruct Ts as [|P Ts']; [inversion Hc'|].
    assert (HP : txns s !! p = Some P) by (by inversion Hc').
    assert (Hc2 : chain s2 p (P :: Ts')).
    { apply chain_frame with (s := s); [done|]. intros a Ha.
      rewrite Htx2. simpl. apply lookup_insert_ne. lia. }
    destruct (transaction_deref_chain e fuel p P Ts' s2 E Hc2)
      as (s3 & k' & Hd & Hk & _ & Hp3 & He3).
    { by inversion Henv. }
    { by rewrite Hen2. }
    { simpl length in *. lia. }
    { lia. }
    simpl length in *.
    destruct (e_refcount E - Z.of_nat k' =? 0)%Z eqn:H0;
      [apply Z.eqb_eq in H0; lia|].
    destruct (environment_deref_counted s3 e _ He3) as (s4 & Hed & _ & He4).
    { simpl. lia. }
    exists s3, (mkEnvironment (env E) (e_refcount E - Z.of_nat k')), s4.
    split; [split; [done|by exists P]|].
    split; [done|]. split; [done|]. split; [done|].
    by rewrite (bind_Ok _ _ _ _ _ Hd), (bind_Ok _ _ _ _ _ Hed).
Qed.

End Finalization.

Lemma transaction_deref_finalizes_witness :
  transaction_active 3 (Some 2) s_child = Ok true s_child
  ∧ ∃ s4, transaction_deref engine_ok 3 2 s_child = Ok tt (set_txns (delete 2) s4).
Proof.
  pose (T2 := mkTransaction (TData cEnvironment 0) 0 (TData cTransaction 1) (Some 1) 1 6).
  pose (T1 := mkTransaction (TData cEnvironment 0) 0 Qnil None 1 4).
  assert (Hc : chain s_child 2 [T2; T1]).
  { apply chain_child with (p := 1); [reflexivity | reflexivity | lia |].
    apply chain_root; reflexivity. }
  assert (Henv : Forall (λ T', environment T' = 0) [T2; T1]).
  { repeat constructor. }
  assert (Hr : (Z.of_nat (length [T2; T1]) ≤ 3 ≤ INT_MAX)%Z).
  { unfold INT_MAX. simpl. lia. }
  destruct (transaction_deref_finalizes engine_ok 0 3 s_child 2 T2 [T1]
              (mkEnvironment 1 3) Hc Henv eq_refl Hr (le_n 3)) as [_ H].
  destruct (H eq_refl) as (Hact & s3 & E3 & s4 & _ & _ & _ & _ & Hd).
  split; [exact Hact|]. exists s4. exact Hd.
Defined.

(** C3, as stated, fails: the child's own handle is still set when its
    refcount reaches zero, but its parent has been committed; the child
    is finalized (its struct is freed) and no abort is issued for its
    handle. *)
Lemma set_handle_not_aborted_under_terminated_parent :
  txns s_parent_committed !! 2 =
    Some (mkTransaction (TData cEnvironment 0) 0 (TData cTransaction 1) (Some 1) 1 6)
  ∧ transaction_deref engine_ok 3 2 s_parent_committed =
      Ok tt (exec (transaction_deref engine_ok 3 2) s_parent_committed)
  ∧ txns (exec (transaction_deref engine_ok 3 2) s_parent_committed) !! 2 = None
  ∧ log (exec (transaction_deref engine_ok 3 2) s_parent_committed) =
      log s_parent_committed
  ∧ ¬ In (mdb_txn_abort 6) (log (exec (transaction_deref engine_ok 3 2) s_parent_committed)).
Proof.
  split; [reflexivity|]. split; [reflexivity|]. split; [reflexivity|].
  split; [reflexivity|].
  vm_compute. intros H. repeat (destruct H as [H|H]; [discriminate H|]). exact H.
Qed.

(** * Further properties of the binding *)

(** ** What the activity check depends on *)

(** The walk never raises and never changes the state. *)
Lemma transaction_active_pure fuel o s :
  (∃ b, transaction_active fuel o s = Ok b s)
  ∨ transaction_active fuel o s = Fault
  ∨ transaction_active fuel o s = OutOfFuel.
Proof.
  revert o. induction fuel as [|fuel IH]; intros [p|]; simpl; eauto.
  unfold bind, load_txn. destruct (txns s !! p) as [P|]; [|eauto].
  destruct (txn P =? NULL)%N; [|apply IH]. left. by exists false.
Qed.

(** It reads the handles and the parent links only. *)
Lemma transaction_active_links fuel o s s' :
  (∀ a, (λ T, (txn T, parent T)) <$> txns s' !! a =
        (λ T, (txn T, parent T)) <$> txns s !! a) →
  transaction_active fuel o s' =
    match transaction_active fuel o s with
    | Ok b _ => Ok b s'
    | Raise e _ => Raise e s'
    | Fault => Fault
    | OutOfFuel => OutOfFuel
    end.
Proof.
  intros Hsame. revert o.
  induction fuel as [|fuel IH]; intros [p|]; simpl; try done.
  unfold bind, load_txn. specialize (Hsame p).
  destruct (txns s' !! p) as [P'|], (txns s !! p) as [P|]; simpl in Hsame;
    try done.
  injection Hsame as -> ->.
  destruct (txn P =? NULL)%N; [done|]. apply IH.
Qed.

Lemma TRANSACTION_Ok fuel k t s p s' :
  TRANSACTION fuel (TData k t) s = Ok p s' →
  p = t ∧ s' = s ∧ transaction_active fuel (Some t) s = Ok true s.
Proof.
  unfold TRANSACTION, transaction_check. simpl. unfold bind at 1. simpl.
  unfold bind at 1. unfold bind at 1.
  destruct (transaction_active_pure fuel (Some t) s) as [[b ->] | [-> | ->]];
    try done.
  destruct b; simpl; [|done]. by intros [= <- <-].
Qed.

(** ** Ending a transaction ends its descendants *)

Lemma ended_ancestor_inactive fuel s s' t T t' Ts :
  txns s !! t = Some T →
  txns s' = <[t := with_txn NULL T]> (txns s) →
  chain s t' Ts → ancestor s t' t → t' < fuel →
  transaction_active fuel (Some t') s' = Ok false s'.
Proof.
  intros Ht Hs' Hc. revert fuel.
  induction Hc as [t' T' Ht' Hp | t' T' p Ts Ht' Hp Hlt Hc IH];
    intros fuel Ha Hf; (destruct fuel as [|fuel]; [lia|]); simpl;
    unfold bind, load_txn; rewrite Hs';
    (destruct (decide (t = t')) as [->|Hne];
      [rewrite lookup_insert_eq; done|]);
    rewrite lookup_insert_ne by done; rewrite Ht'.
  - inversion Ha as [|? T'' p a Ht'' Hp'' Ha']; subst; [done|]. congruence.
  - destruct (txn T' =? NULL)%N; [done|]. rewrite Hp.
    fold (transaction_active fuel (Some p) s').
    apply IH; [|lia].
    inversion Ha as [|? T'' p' a Ht'' Hp'' Ha']; subst; [done|].
    congruence.
Qed.

Section Ending.

Variable engine : Engine.

Lemma commit_abort_Ok fuel k t s v s' :
  transaction_commit engine fuel (TData k t) s = Ok v s'
  ∨ transaction_abort engine fuel (TData k t) s = Ok v s' →
  ∃ T, txns s !! t = Some T ∧ txns s' = <[t := with_txn NULL T]> (txns s)
       ∧ dbs s' = dbs s ∧ curs s' = curs s.
Proof.
  unfold transaction_commit, transaction_abort.
  intros [H | H]; unfold bind at 1 in H;
    destruct (TRANSACTION fuel (TData k t) s) as [p s1| | |] eqn:HT; try done;
    apply TRANSACTION_Ok in HT as (-> & -> & _);
    unfold bind, load_txn, call, store_txn, bind, load_txn, modify in H;
    simpl in H; destruct (txns s !! t) as [T|] eqn:Ht; try done;
    simpl in H; rewrite Ht in H; injection H as _ <-; by exists T.
Qed.

(** Once [commit] or [abort] has returned on a Transaction, every
    Transaction whose chain of parents passes through it is inactive,
    although its own handle is untouched; every Database and Cursor
    that remembers such a Transaction is unchanged and is rejected with
    "Transaction is terminated". *)
Theorem ended_transaction_ends_descendants fuel s k t t' Ts s' :
  transaction_commit engine fuel (TData k t) s = Ok Qnil s'
  ∨ transaction_abort engine fuel (TData k t) s = Ok Qnil s' →
  chain s t' Ts → ancestor s t' t → t' < fuel →
  transaction_active fuel (Some t') s' = Ok false s'
  ∧ (t' ≠ t → txns s' !! t' = txns s !! t')
  ∧ (∀ d D, dbs s !! d = Some D → d_transaction D = t' →
       dbs s' !! d = Some D ∧ database_check fuel d s' = terminated s')
  ∧ (∀ c C, curs s !! c = Some C → c_transaction C = t' →
       curs s' !! c = Some C ∧ cursor_check fuel c s' = terminated s').
Proof.
  intros Hend Hc Ha Hf.
  destruct (commit_abort_Ok _ _ _ _ _ _ Hend) as (T & Ht & Htx & Hdb & Hcu).
  pose proof (ended_ancestor_inactive fuel s s' t T t' Ts Ht Htx Hc Ha Hf) as Hact.
  split; [done|]. split; [|split].
  - intros Hne. rewrite Htx. by apply lookup_insert_ne.
  - intros d D Hd <-. rewrite Hdb. split; [done|].
    unfold database_check, bind, load_db, transaction_check, bind.
    by rewrite Hdb, Hd, Hact.
  - intros c C Hcur <-. rewrite Hcu. split; [done|].
    unfold cursor_check, bind, load_cur, transaction_check, bind.
    by rewrite Hcu, Hcur, Hact.
Qed.

End Ending.

Lemma ended_transaction_ends_descendants_witness :
  transaction_active 3 (Some 2) s_parent_committed = Ok false s_parent_committed
  ∧ txns s_parent_committed !! 2 = txns s_child !! 2.
Proof.
  pose (T2 := mkTransaction (TData cEnvironment 0) 0 (TData cTransaction 1) (Some 1) 1 6).
  pose (T1 := mkTransaction (TData cEnvironment 0) 0 Qnil None 1 4).
  assert (Hc : chain s_child 2 [T2; T1]).
  { apply chain_child with (p := 1); [reflexivity | reflexivity | lia |].
    apply chain_root; reflexivity. }
  assert (Ha : ancestor s_child 2 1).
  { apply ancestor_parent with (T := T2) (p := 1); [reflexivity | reflexivity |].
    apply ancestor_self. }
  destruct (ended_transaction_ends_descendants engine_ok 3 s_child cTransaction 1 2
              [T2; T1] s_parent_committed (or_introl eq_refl) Hc Ha (le_n 3))
    as (Hact & Hsame & _).
  split; [exact Hact|]. apply Hsame. lia.
Defined.

(** ** The Environment handle is closed once *)

Section Lifetimes.

Variable engine : Engine.

(** Releasing a reference of an Environment closes the engine handle
    only when it is the last reference and the handle is still set.
    After an explicit [close] the release never closes again: whether or
    not the caller closed explicitly, the engine's [mdb_env_close] is
    called exactly once by the time the last reference is gone, and the
    struct is freed only then. *)
Theorem environment_handle_closed_once s e k E :
  envs s !! e = Some E → env E ≠ NULL → (1 ≤ e_refcount E ≤ INT_MAX)%Z →
  let last := (e_refcount E =? 1)%Z in
  let left h :=
    if last then delete e (envs s)
    else <[e := mkEnvironment h (e_refcount E - 1)]> (envs s) in
  environment_deref engine e s =
    Ok tt (mkState (left (env E)) (txns s) (dbs s) (curs s) (next s)
             (log s ++ if last then [mdb_env_close (env E)] else []))
  ∧ (environment_close engine (TData k e) ;;; environment_deref engine e) s =
    Ok tt (mkState (left NULL) (txns s) (dbs s) (curs s) (next s)
             (log s ++ [mdb_env_close (env E)])).
Proof.
  intros He Hh Hr last left.
  assert (Hw : int_wrap (e_refcount E - 1) = (e_refcount E - 1)%Z).
  { apply int_wrap_small. unfold INT_MIN, INT_MAX in *. lia. }
  assert (Hl : (e_refcount E - 1 =? 0)%Z = last).
  { subst last. destruct (e_refcount E =? 1)%Z eqn:H1.
    - apply Z.eqb_eq in H1. rewrite H1. done.
    - apply Z.eqb_neq in H1. apply Z.eqb_neq. lia. }
  split.
  - unfold environment_deref.
    rewrite (bind_Ok _ _ _ _ _ (load_env_Some _ _ _ He)), Hw, Hl.
    unfold bind at 1, store_env, bind at 1, load_env. rewrite He. simpl.
    subst left. destruct last; simpl.
    + rewrite N_eqb_NULL by done. unfold bind, call, free_env, modify. simpl.
      unfold set_envs. simpl. by rewrite delete_insert_eq.
    + unfold ret, set_envs. simpl. by rewrite app_nil_r.
  - unfold bind at 1, environment_close.
    rewrite (bind_Ok _ _ _ _ _ (ENVIRONMENT_open _ _ k _ He Hh)),
      (bind_Ok _ _ _ _ _ (load_env_Some _ _ _ He)).
    unfold bind at 1, call. unfold bind at 1, store_env, bind at 1, load_env.
    simpl. rewrite He. simpl.
    unfold environment_deref, bind at 1, load_env. simpl.
    rewrite lookup_insert_eq. simpl. rewrite Hw, Hl.
    unfold bind at 1, store_env, bind at 1, load_env. simpl.
    rewrite lookup_insert_eq. simpl.
    subst left. destruct last; simpl.
    + unfold bind, ret, free_env, modify, set_envs. simpl.
      by rewrite insert_insert_eq, delete_insert_eq.
    + unfold ret, set_envs. simpl. by rewrite insert_insert_eq.
Qed.

(** ** Beginning a root transaction *)

Lemma environment_transaction_run s e k E argv :
  envs s !! e = Some E → env E ≠ NULL → length argv ≤ 1 →
  let self := TData k e in
  let flags :=
    match argv with
    | [readonly] => if NIL_P readonly then 0%Z else MDB_RDONLY
    | _ => 0%Z
    end in
  let begin := mdb_txn_begin (env E) NULL flags in
  let answer := engine (log s) begin in
  let t := next s in
  environment_transaction engine argv self None s =
    if (answer.1 =? 0)%Z then
      Ok (TData cTransaction t)
        (mkState
           (<[e := mkEnvironment (env E) (int_wrap (e_refcount E + 1))]> (envs s))
           (<[t := mkTransaction self e Qnil None 1 answer.2]> (txns s))
           (dbs s) (curs s) (S t) (log s ++ [begin]))
    else Raise (MDBError answer.1) (set_log (log s ++ [begin]) s).
Proof.
  intros He Hh Hlen self flags begin answer t.
  unfold environment_transaction.
  rewrite (bind_Ok _ _ _ _ _ (ENVIRONMENT_open _ _ k _ He Hh)).
  assert (Hscan : rb_scan_args 0 1 argv s =
            Ok (length argv, argv ++ replicate (1 - length argv) Qnil) s).
  { unfold rb_scan_args. simpl.
    destruct (1 <? length argv) eqn:Hl; [apply Nat.ltb_lt in Hl; lia|done]. }
  rewrite (bind_Ok _ _ _ _ _ Hscan). simpl.
  rewrite (bind_Ok _ _ _ _ _ (load_env_Some _ _ _ He)).
  assert (Hflags : (if (length argv =? 1)
                       && negb (NIL_P (arg 0 (argv ++ replicate (1 - length argv) Qnil)))
                    then MDB_RDONLY else 0%Z) = flags).
  { subst flags. unfold arg.
    destruct argv as [|readonly [|? ?]]; simpl in *; [done| |lia].
    by destruct (NIL_P readonly). }
  rewrite Hflags. fold begin.
  unfold bind at 1, call at 1. fold answer. unfold bind at 1, check.
  destruct (answer.1 =? 0)%Z; simpl; [|done].
  unfold bind at 1. simpl. unfold bind at 1. simpl.
  unfold bind at 1, store_env, bind at 1, load_env. simpl. rewrite He. simpl.
  done.
Qed.

(** [environment_transaction] without a block: any argument that is not
    [nil], [false] included, asks the engine for a read-only
    transaction.  When the engine accepts, a Transaction struct with
    refcount 1, no parent and the new handle is allocated and the
    Environment's refcount grows by one; when it refuses, its status is
    raised, nothing is allocated and the refcount is as before. *)
Theorem environment_transaction_begins s e k E argv :
  envs s !! e = Some E → env E ≠ NULL → length argv ≤ 1 →
  let self := TData k e in
  let flags :=
    match argv with
    | [readonly] => if NIL_P readonly then 0%Z else MDB_RDONLY
    | _ => 0%Z
    end in
  let begin := mdb_txn_begin (env E) NULL flags in
  let answer := engine (log s) begin in
  let t := next s in
  environment_transaction engine argv self None s =
    if (answer.1 =? 0)%Z then
      Ok (TData cTransaction t)
        (mkState
           (<[e := mkEnvironment (env E) (int_wrap (e_refcount E + 1))]> (envs s))
           (<[t := mkTransaction self e Qnil None 1 answer.2]> (txns s))
           (dbs s) (curs s) (S t) (log s ++ [begin]))
    else Raise (MDBError answer.1) (set_log (log s ++ [begin]) s).
Proof. apply environment_transaction_run. Qed.

(** A root Transaction that has just been begun is active, its
    [environment] is the Environment object it was begun from and its
    [parent] is [nil]. *)
Theorem begun_root_reports_its_environment s e k E argv fuel :
  envs s !! e = Some E → env E ≠ NULL → length argv ≤ 1 → 0 < fuel →
  ∀ vtxn s1,
    environment_transaction engine argv (TData k e) None s = Ok vtxn s1 →
    ∃ t T, vtxn = TData cTransaction t ∧ txns s1 !! t = Some T
      ∧ (txn T ≠ NULL →
         transaction_active fuel (Some t) s1 = Ok true s1
         ∧ transaction_environment fuel vtxn s1 = Ok (TData k e) s1
         ∧ transaction_parent fuel vtxn s1 = Ok Qnil s1).
Proof.
  intros He Hh Hlen Hf vtxn s1 Hrun.
  rewrite (environment_transaction_run s e k E argv He Hh Hlen) in Hrun.
  cbv zeta in Hrun.
  match type of Hrun with
  | (if (?a.1 =? 0)%Z then _ else _) = _ =>
      destruct (a.1 =? 0)%Z; [|done]
  end.
  injection Hrun as <- <-.
  eexists _, _. split; [done|]. split; [apply lookup_insert_eq|].
  simpl. intros Hhandle.
  match goal with
  | |- transaction_active _ _ ?s1 = _ ∧ _ =>
      assert (Hact : transaction_active fuel (Some (next s)) s1 = Ok true s1)
  end.
  { destruct fuel as [|fuel]; [lia|]. simpl. unfold bind, load_txn. simpl.
    rewrite lookup_insert_eq. simpl. rewrite N_eqb_NULL by done. by destruct fuel. }
  split; [done|].
  pose proof (TRANSACTION_active fuel cTransaction _ _ _ Hact) as HT. simpl in HT.
  unfold transaction_environment, transaction_parent.
  rewrite !(bind_Ok _ _ _ _ _ HT).
  unfold bind, load_txn. simpl. by rewrite lookup_insert_eq.
Qed.

End Lifetimes.

Lemma environment_handle_closed_once_witness :
  (environment_close engine_ok (TData cEnvironment 0) ;;;
   environment_deref engine_ok 0) s_open =
    Ok tt (mkState ∅ ∅ ∅ ∅ 1 (log s_open ++ [mdb_env_close 1])).
Proof.
  assert (Hh : (1%N : N) ≠ NULL) by discriminate.
  assert (Hr : (1 ≤ 1 ≤ INT_MAX)%Z) by (unfold INT_MAX; lia).
  exact (proj2 (environment_handle_closed_once engine_ok s_open 0 cEnvironment
                  (mkEnvironment 1 1) eq_refl Hh Hr)).
Defined.

Lemma environment_transaction_begins_witness :
  environment_transaction engine_ok [Qfalse] (TData cEnvironment 0) None s_open =
    Ok (TData cTransaction 1)
      (mkState (<[0 := mkEnvironment 1 2]> (envs s_open))
         (<[1 := mkTransaction (TData cEnvironment 0) 0 Qnil None 1 4]> (txns s_open))
         (dbs s_open) (curs s_open) 2
         (log s_open ++ [mdb_txn_begin 1 NULL MDB_RDONLY])).
Proof.
  assert (Hh : (1%N : N) ≠ NULL) by discriminate.
  exact (environment_transaction_begins engine_ok s_open 0 cEnvironment
           (mkEnvironment 1 1) [Qfalse] eq_refl Hh (le_n 1)).
Defined.

Lemma begun_root_reports_its_environment_witness :
  ∃ t T, TData cTransaction 1 = TData cTransaction t ∧ txns s_root !! t = Some T
    ∧ (txn T ≠ NULL →
       transaction_active 1 (Some t) s_root = Ok true s_root
       ∧ transaction_environment 1 (TData cTransaction 1) s_root =
           Ok (TData cEnvironment 0) s_root
       ∧ transaction_parent 1 (TData cTransaction 1) s_root = Ok Qnil s_root).
Proof.
  assert (Hh : (1%N : N) ≠ NULL) by discriminate.
  exact (begun_root_reports_its_environment engine_ok s_open 0 cEnvironment
           (mkEnvironment 1 1) [] 1 eq_refl Hh (le_S 0 0 (le_n 0)) (le_n 1)
           (TData cTransaction 1) s_root eq_refl).
Defined.

(** ** Releasing what was begun *)

Section Release.

Variable engine : Engine.

(** Releasing the last reference of a root Transaction whose
    Environment stays referenced. *)
Lemma transaction_deref_root fuel s t T E :
  txns s !! t = Some T → parent T = None → refcount T = 1%Z →
  envs s !! environment T = Some E → (2 ≤ e_refcount E ≤ INT_MAX)%Z →
  transaction_deref engine (S fuel) t s =
    Ok tt (mkState
             (<[environment T := mkEnvironment (env E) (e_refcount E - 1)]> (envs s))
             (delete t (txns s)) (dbs s) (curs s) (next s)
             (log s ++ if (txn T =? NULL)%N then [] else [mdb_txn_abort (txn T)])).
Proof.
  intros Ht Hp Hr He HE.
  cbn [transaction_deref].
  rewrite (bind_Ok _ _ _ _ _ (load_txn_Some _ _ _ Ht)),
    (bind_Ok _ _ _ _ _ (store_txn_Some _ _ _ _ Ht)).
  rewrite Hr. change (int_wrap (1 - 1) =? 0)%Z with true. cbv iota.
  unfold bind at 1. cbn [transaction_active]. unfold bind at 1, load_txn.
  simpl. rewrite lookup_insert_eq. simpl. rewrite Hp.
  assert (Hroot : transaction_active fuel None
            (set_txns (insert t (with_refcount (int_wrap (1 - 1)) T)) s) =
          Ok true (set_txns (insert t (with_refcount (int_wrap (1 - 1)) T)) s))
    by (by destruct fuel).
  assert (Hw : int_wrap (e_refcount E - 1) = (e_refcount E - 1)%Z).
  { apply int_wrap_small. unfold INT_MIN, INT_MAX in *. lia. }
  assert (H0 : (e_refcount E - 1 =? 0)%Z = false) by (apply Z.eqb_neq; lia).
  destruct (txn T =? NULL)%N; simpl; rewrite ?Hroot; simpl;
    unfold bind, call, ret, environment_deref, bind, load_env, store_env, bind,
      load_env, modify, free_txn, modify; simpl;
    rewrite He; simpl; rewrite He, Hw, H0; simpl;
    unfold set_txns, set_envs; simpl;
    rewrite ?app_nil_r, delete_insert_eq; done.
Qed.

(** A root Transaction that is begun and then dropped without commit or
    abort leaves nothing behind: its handle is aborted, its struct is
    freed, and the Environment's refcount is what it was before the
    begin. *)
Theorem begun_root_released_leaves_no_trace s e k E argv fuel :
  envs s !! e = Some E → env E ≠ NULL → length argv ≤ 1 →
  (1 ≤ e_refcount E < INT_MAX)%Z → txns s !! next s = None → 0 < fuel →
  ∀ s1 T,
    environment_transaction engine argv (TData k e) None s =
      Ok (TData cTransaction (next s)) s1 →
    txns s1 !! next s = Some T → txn T ≠ NULL →
    transaction_deref engine fuel (next s) s1 =
      Ok tt (mkState (envs s) (txns s) (dbs s) (curs s) (S (next s))
               (log s1 ++ [mdb_txn_abort (txn T)])).
Proof.
  intros He Hh Hlen Hr Hfresh Hf s1 T Hrun HT Hhandle.
  rewrite (environment_transaction_run engine s e k E argv He Hh Hlen) in Hrun.
  cbv zeta in Hrun.
  match type of Hrun with
  | (if (?a.1 =? 0)%Z then _ else _) = _ =>
      destruct (a.1 =? 0)%Z; [|done]
  end.
  injection Hrun as <-.
  pose proof HT as HT'. simpl in HT'. rewrite lookup_insert_eq in HT'.
  injection HT' as HT'.
  assert (Hp : parent T = None) by (by rewrite <- HT').
  assert (Hrc : refcount T = 1%Z) by (by rewrite <- HT').
  assert (Hen : environment T = e) by (by rewrite <- HT').
  clear HT'.
  destruct fuel as [|fuel]; [lia|].
  assert (Hw : int_wrap (e_refcount E + 1) = (e_refcount E + 1)%Z).
  { apply int_wrap_small. unfold INT_MIN, INT_MAX in *. lia. }
  rewrite (transaction_deref_root fuel _ (next s) T
             (mkEnvironment (env E) (int_wrap (e_refcount E + 1))) HT Hp Hrc);
    [ | rewrite Hen; apply lookup_insert_eq
      | simpl; rewrite Hw; unfold INT_MAX in *; lia ].
  rewrite N_eqb_NULL by done. simpl. rewrite Hen, Hw.
  replace (e_refcount E + 1 - 1)%Z with (e_refcount E) by lia.
  rewrite insert_insert_eq, delete_insert_eq, (delete_id _ _ Hfresh).
  rewrite (insert_id (envs s) e); [done|]. rewrite He. by destruct E.
Qed.

End Release.

Lemma begun_root_released_leaves_no_trace_witness :
  transaction_deref engine_ok 1 1 s_root =
    Ok tt (mkState (envs s_open) (txns s_open) (dbs s_open) (curs s_open) 2
             (log s_root ++ [mdb_txn_abort 4])).
Proof.
  assert (Hh : (1%N : N) ≠ NULL) by discriminate.
  assert (Hr : (1 ≤ 1 < INT_MAX)%Z) by (unfold INT_MAX; lia).
  assert (Hh4 : (4%N : N) ≠ NULL) by discriminate.
  exact (begun_root_released_leaves_no_trace engine_ok s_open 0 cEnvironment
           (mkEnvironment 1 1) [] 1 eq_refl Hh (le_S 0 0 (le_n 0)) Hr eq_refl (le_n 1)
           s_root (mkTransaction (TData cEnvironment 0) 0 Qnil None 1 4)
           eq_refl eq_refl Hh4).
Defined.

(** ** Nested transactions and the parent's refcount *)

Section Nested.

Variable engine : Engine.

Lemma transaction_transaction_run fuel s p k P E :
  txns s !! p = Some P → envs s !! environment P = Some E →
  transaction_active fuel (Some p) s = Ok true s →
  let self := TData k p in
  let owner := mdb_txn_env (txn P) in
  let begin := mdb_txn_begin (engine (log s) owner).2 (txn P) 0 in
  let answer := engine (log s ++ [owner]) begin in
  let c := next s in
  transaction_transaction engine fuel self None s =
    if (answer.1 =? 0)%Z then
      Ok (TData cTransaction c)
        (mkState
           (<[environment P :=
                mkEnvironment (env E) (int_wrap (e_refcount E + 1))]> (envs s))
           (<[c := mkTransaction (venv P) (environment P) self (Some p) 1 answer.2]>
              (txns s))
           (dbs s) (curs s) (S c) (log s ++ [owner; begin]))
    else Raise (MDBError answer.1) (set_log (log s ++ [owner; begin]) s).
Proof.
  intros Hp He Hact self owner begin answer c.
  unfold transaction_transaction.
  pose proof (TRANSACTION_active fuel k p s _ Hact) as HT; simpl in HT.
  rewrite (bind_Ok _ _ _ _ _ HT), (bind_Ok _ _ _ _ _ (load_txn_Some _ _ _ Hp)).
  fold owner. unfold bind at 1, call at 1. fold begin.
  unfold bind at 1, call at 1. simpl. fold answer.
  unfold bind at 1, check.
  destruct (answer.1 =? 0)%Z; simpl.
  - unfold bind at 1. simpl. unfold bind at 1. simpl.
    unfold bind at 1, store_env, bind at 1, load_env. simpl. rewrite He. simpl.
    rewrite <- app_assoc. done.
  - unfold rb_raise, set_log. simpl. by rewrite <- app_assoc.
Qed.

(** [transaction_transaction] without a block: the child is begun in
    the engine under the parent's handle; when the engine accepts, the
    child struct points to the parent and to the parent's Environment,
    whose refcount grows by one, while the parent struct, its refcount
    included, stays as it was.  When the engine refuses, its status is
    raised and nothing is allocated or counted. *)
Theorem nested_begin_leaves_parent_uncounted fuel s p k P E :
  txns s !! p = Some P → envs s !! environment P = Some E →
  transaction_active fuel (Some p) s = Ok true s → p < next s →
  let self := TData k p in
  let owner := mdb_txn_env (txn P) in
  let begin := mdb_txn_begin (engine (log s) owner).2 (txn P) 0 in
  let answer := engine (log s ++ [owner]) begin in
  let c := next s in
  let s1 :=
    mkState
      (<[environment P := mkEnvironment (env E) (int_wrap (e_refcount E + 1))]> (envs s))
      (<[c := mkTransaction (venv P) (environment P) self (Some p) 1 answer.2]> (txns s))
      (dbs s) (curs s) (S c) (log s ++ [owner; begin]) in
  transaction_transaction engine fuel self None s =
    (if (answer.1 =? 0)%Z then Ok (TData cTransaction c) s1
     else Raise (MDBError answer.1) (set_log (log s ++ [owner; begin]) s))
  ∧ txns s1 !! p = Some P.
Proof.
  intros Hp He Hact Hlt self owner begin answer c s1. split.
  - by apply transaction_transaction_run.
  - simpl. rewrite lookup_insert_ne by (subst c; lia). done.
Qed.

(** Releasing a child that was begun in a parent takes one reference
    off the parent, although beginning it added none.  The parent's
    refcount ends one lower than before the child existed; a parent that
    held a single reference (its own object's) is freed, and the guard
    of any later method call on that object reads a freed struct. *)
Theorem released_child_takes_parent_reference fuel s p k P Ts e E :
  chain s p (P :: Ts) → Forall (λ T, environment T = e) (P :: Ts) →
  envs s !! e = Some E →
  (Z.of_nat (length (P :: Ts)) ≤ e_refcount E < INT_MAX)%Z →
  handles_set (P :: Ts) = true → p < next s → next s < fuel →
  ∀ s1, transaction_transaction engine fuel (TData k p) None s =
          Ok (TData cTransaction (next s)) s1 →
    ∃ s', transaction_deref engine fuel (next s) s1 = Ok tt s'
      ∧ txns s' !! next s = None
      ∧ txns s' !! p =
          (if (int_wrap (refcount P - 1) =? 0)%Z then None
           else Some (with_refcount (int_wrap (refcount P - 1)) P))
      ∧ (refcount P = 1%Z → ∀ f, transaction_check (S f) p s' = Fault).
Proof.
  intros Hc Henv He Hr Hset Hlt Hf s1 Hrun.
  assert (Hp : txns s !! p = Some P) by (by inversion Hc).
  assert (HeP : environment P = e) by (by inversion Henv).
  assert (Hact : transaction_active fuel (Some p) s = Ok true s).
  { rewrite <- Hset. apply transaction_active_chain; [done|lia]. }
  rewrite (transaction_transaction_run fuel s p k P E Hp) in Hrun;
    [|by rewrite HeP|done].
  cbv zeta in Hrun.
  match type of Hrun with
  | (if (?a.1 =? 0)%Z then _ else _) = _ =>
      destruct (a.1 =? 0)%Z; [|done];
      set (h := a.2) in Hrun
  end.
  injection Hrun as <-. rewrite HeP.
  set (c := next s) in *.
  set (C := mkTransaction (venv P) e (TData k p) (Some p) 1 h).
  assert (Hw : int_wrap (e_refcount E + 1) = (e_refcount E + 1)%Z).
  { apply int_wrap_small. unfold INT_MIN, INT_MAX in *. simpl length in *. lia. }
  rewrite Hw.
  match goal with |- ∃ s', transaction_deref _ _ _ ?x = _ ∧ _ => set (s1 := x) end.
  destruct fuel as [|fuel]; [lia|].
  assert (HC : txns s1 !! c = Some C) by apply lookup_insert_eq.
  cbn [transaction_deref].
  rewrite (bind_Ok _ _ _ _ _ (load_txn_Some _ _ _ HC)),
    (bind_Ok _ _ _ _ _ (store_txn_Some _ _ _ _ HC)).
  change (int_wrap (refcount C - 1) =? 0)%Z with true. cbv iota.
  change (with_refcount (int_wrap (refcount C - 1)) C) with (with_refcount 0 C).
  set (s1' := set_txns (insert c (with_refcount 0 C)) s1).
  assert (Hlow : ∀ a, a ≤ p → txns s1' !! a = txns s !! a).
  { intros a Ha. subst s1' s1. simpl.
    rewrite !lookup_insert_ne by lia. done. }
  assert (Hc1 : chain s1' c (with_refcount 0 C :: P :: Ts)).
  { apply chain_child with (p := p); [apply lookup_insert_eq|done|done|].
    by apply chain_frame with (s := s). }
  rewrite (bind_Ok _ _ _ _ _ (transaction_active_chain _ _ _ (S fuel) Hc1 Hf)).
  set (active := handles_set (with_refcount 0 C :: P :: Ts)).
  set (s2 := if active
             then set_log (log s1' ++ [mdb_txn_abort (txn C)]) s1' else s1').
  assert (Htx2 : txns s2 = txns s1') by (subst s2; by destruct active).
  assert (Hen2 : envs s2 = envs s1) by (subst s2; by destruct active).
  assert (Hstep : ∀ m : M unit,
    ((if active
      then (_ <- call engine (mdb_txn_abort (txn C)) ;; ret tt) else ret tt) ;;; m) s1'
    = m s2).
  { intros m. subst s2. by destruct active. }
  rewrite Hstep. clear Hstep.
  change (parent C) with (Some p). change (environment C) with e.
  assert (Hc2 : chain s2 p (P :: Ts)).
  { apply chain_frame with (s := s); [done|]. intros a Ha.
    rewrite Htx2. by apply Hlow. }
  destruct (transaction_deref_chain engine e fuel p P Ts s2
              (mkEnvironment (env E) (e_refcount E + 1)) Hc2 Henv)
    as (s3 & k' & Hd & Hk & Hfr & Hp3 & He3).
  { rewrite Hen2. apply lookup_insert_eq. }
  { simpl e_refcount. unfold INT_MAX in *. simpl length in *. lia. }
  { lia. }
  simpl e_refcount in He3. simpl env in He3. simpl length in *.
  destruct (e_refcount E + 1 - Z.of_nat k' =? 0)%Z eqn:H0;
    [apply Z.eqb_eq in H0; lia|].
  destruct (environment_deref_counted engine s3 e _ He3) as (s4 & Hed & Htx4 & _).
  { simpl. unfold INT_MAX in *. lia. }
  rewrite (bind_Ok _ _ _ _ _ Hd), (bind_Ok _ _ _ _ _ Hed).
  exists (set_txns (delete c) s4). split; [done|].
  assert (Hp' : txns (set_txns (delete c) s4) !! p =
            (if (int_wrap (refcount P - 1) =? 0)%Z then None
             else Some (with_refcount (int_wrap (refcount P - 1)) P))).
  { simpl. rewrite lookup_delete_ne by (subst c; lia). by rewrite Htx4. }
  split; [simpl; apply lookup_delete_eq|]. split; [done|].
  intros H1 f. rewrite H1 in Hp'. change (int_wrap (1 - 1) =? 0)%Z with true in Hp'.
  unfold transaction_check. cbn [transaction_active].
  unfold bind, load_txn. by rewrite Hp'.
Qed.

End Nested.

Lemma nested_begin_leaves_parent_uncounted_witness :
  transaction_transaction engine_ok 2 (TData cTransaction 1) None s_root =
    Ok (TData cTransaction 2) s_child
  ∧ txns s_child !! 1 = txns s_root !! 1.
Proof.
  pose (T1 := mkTransaction (TData cEnvironment 0) 0 Qnil None 1 4).
  destruct (nested_begin_leaves_parent_uncounted engine_ok 2 s_root 1 cTransaction T1
              (mkEnvironment 1 2) eq_refl eq_refl eq_refl (le_n 2)) as [Hrun Hsame].
  split; [exact Hrun | exact Hsame].
Defined.

Lemma released_child_takes_parent_reference_witness :
  ∃ s', transaction_deref engine_ok 3 2 s_child = Ok tt s'
    ∧ txns s' !! 2 = None
    ∧ txns s' !! 1 = None
    ∧ transaction_check 1 1 s' = Fault.
Proof.
  pose (T1 := mkTransaction (TData cEnvironment 0) 0 Qnil None 1 4).
  assert (Hc : chain s_root 1 [T1]) by (apply chain_root; reflexivity).
  assert (Henv : Forall (λ T, environment T = 0) [T1]) by (repeat constructor).
  assert (Hr : (Z.of_nat (length [T1]) ≤ 2 < INT_MAX)%Z).
  { unfold INT_MAX. simpl. lia. }
  destruct (released_child_takes_parent_reference engine_ok 3 s_root 1 cTransaction
              T1 [] 0 (mkEnvironment 1 2) Hc Henv eq_refl Hr eq_refl (le_n 2) (le_n 3)
              s_child eq_refl) as (s' & Hd & Hfree & Hp & Hfault).
  exists s'. split; [exact Hd|]. split; [exact Hfree|]. split; [exact Hp|].
  exact (Hfault eq_refl 0).
Defined.

(** ** The lifetime of a Database *)

Lemma DATABASE_usable fuel k d s :
  database_check fuel d s = Ok tt s → DATABASE fuel (TData k d) s = Ok d s.
Proof.
  intros Hchk. unfold DATABASE. simpl. unfold bind at 1. simpl.
  by rewrite (bind_Ok _ _ _ _ _ Hchk).
Qed.

Section DatabaseLifetime.

Variable engine : Engine.

(** Releasing a reference that is not the last only decrements. *)
Lemma transaction_deref_counted fuel s t T :
  txns s !! t = Some T → int_wrap (refcount T - 1) ≠ 0%Z →
  transaction_deref engine (S fuel) t s =
    Ok tt (set_txns (insert t (with_refcount (int_wrap (refcount T - 1)) T)) s).
Proof.
  intros Ht Hn. cbn [transaction_deref].
  rewrite (bind_Ok _ _ _ _ _ (load_txn_Some _ _ _ Ht)),
    (bind_Ok _ _ _ _ _ (store_txn_Some _ _ _ _ Ht)).
  apply Z.eqb_neq in Hn. by rewrite Hn.
Qed.

Lemma database_open_run fuel s t k T name rest :
  txns s !! t = Some T →
  transaction_active fuel (Some t) s = Ok true s →
  has_nul name = false → length rest ≤ 1 →
  let self := TData k t in
  let request := mdb_dbi_open (txn T) name 0 in
  let answer := engine (log s) request in
  database_open engine fuel (RString name :: rest) self s =
    if (answer.1 =? 0)%Z then
      Ok (TData cDatabase (next s))
        (mkState (envs s)
           (<[t := with_refcount (int_wrap (refcount T + 1)) T]> (txns s))
           (<[next s := mkDatabase self t answer.2 1]> (dbs s))
           (curs s) (S (next s)) (log s ++ [request]))
    else Raise (MDBError answer.1) (set_log (log s ++ [request]) s).
Proof.
  intros Ht Hact Hn Hlen self request answer.
  pose proof (TRANSACTION_active fuel k t s _ Hact) as HT; simpl in HT.
  unfold database_open. rewrite (bind_Ok _ _ _ _ _ HT).
  assert (Hscan : rb_scan_args 1 1 (RString name :: rest) s =
            Ok (S (length rest),
                (RString name :: rest) ++ replicate (1 - length rest) Qnil) s).
  { unfold rb_scan_args. simpl.
    destruct (2 <? S (length rest)) eqn:Hl; [apply Nat.ltb_lt in Hl; lia|done]. }
  rewrite (bind_Ok _ _ _ _ _ Hscan). simpl.
  rewrite (bind_Ok _ _ _ _ _ (load_txn_Some _ _ _ Ht)).
  unfold bind at 1. simpl. rewrite Hn. simpl.
  assert (H3 : (length rest =? 2) = false).
  { apply Nat.eqb_neq. lia. }
  rewrite H3. unfold bind at 1. simpl.
  unfold bind at 1. unfold call at 1. unfold bind at 1, check.
  change (uint_wrap 0) with 0%Z. fold request. fold answer.
  destruct (answer.1 =? 0)%Z; simpl; [|done].
  unfold bind, store_txn, bind, load_txn, modify; simpl.
  rewrite Ht. done.
Qed.

(** A Database that has just been opened is usable, and its
    [transaction] is the Transaction object it was opened on, which is
    still active: taking the reference does not disturb the chain. *)
Theorem opened_database_reports_its_transaction fuel s t k T name rest vdb s1 :
  txns s !! t = Some T →
  transaction_active fuel (Some t) s = Ok true s →
  has_nul name = false → length rest ≤ 1 →
  database_open engine fuel (RString name :: rest) (TData k t) s = Ok vdb s1 →
  vdb = TData cDatabase (next s)
  ∧ transaction_active fuel (Some t) s1 = Ok true s1
  ∧ database_check fuel (next s) s1 = Ok tt s1
  ∧ database_transaction fuel vdb s1 = Ok (TData k t) s1.
Proof.
  intros Ht Hact Hn Hlen Hrun.
  rewrite (database_open_run fuel s t k T name rest Ht Hact Hn Hlen) in Hrun.
  cbv zeta in Hrun.
  match type of Hrun with
  | (if (?a.1 =? 0)%Z then _ else _) = _ =>
      destruct (a.1 =? 0)%Z; [|done]; set (h := a.2) in Hrun
  end.
  injection Hrun as <- <-. split; [done|].
  match goal with |- transaction_active _ _ ?x = _ ∧ _ => set (s1 := x) end.
  assert (Hact1 : transaction_active fuel (Some t) s1 = Ok true s1).
  { rewrite (transaction_active_links fuel (Some t) s s1), Hact; [done|].
    intros a. subst s1. simpl.
    destruct (decide (t = a)) as [<-|Hne].
    - by rewrite lookup_insert_eq, Ht.
    - by rewrite lookup_insert_ne. }
  assert (Hchk : database_check fuel (next s) s1 = Ok tt s1).
  { unfold database_check, bind, load_db, transaction_check, bind. simpl.
    rewrite lookup_insert_eq. simpl. by rewrite Hact1. }
  split; [done|]. split; [done|].
  unfold database_transaction.
  rewrite (bind_Ok _ _ _ _ _ (DATABASE_usable _ cDatabase _ _ Hchk)).
  unfold bind, load_db. simpl. by rewrite lookup_insert_eq.
Qed.

(** Opening a Database and then finalizing it gives back what it took:
    the Transaction's refcount is what it was before the open, the
    Database struct is gone, and the table handle has been closed in the
    Environment of the Transaction. *)
Theorem opened_database_freed_returns_reference fuel s t k T E name rest vdb s1 D :
  txns s !! t = Some T → envs s !! environment T = Some E →
  transaction_active fuel (Some t) s = Ok true s →
  has_nul name = false → length rest ≤ 1 →
  (1 ≤ refcount T < INT_MAX)%Z → dbs s !! next s = None → 0 < fuel →
  database_open engine fuel (RString name :: rest) (TData k t) s = Ok vdb s1 →
  dbs s1 !! next s = Some D →
  database_free engine fuel (next s) s1 =
    Ok tt (mkState (envs s) (txns s) (dbs s) (curs s) (S (next s))
             (log s1 ++ [mdb_dbi_close (env E) (dbi D)])).
Proof.
  intros Ht He Hact Hn Hlen Hr Hfresh Hf Hrun HD.
  rewrite (database_open_run fuel s t k T name rest Ht Hact Hn Hlen) in Hrun.
  cbv zeta in Hrun.
  match type of Hrun with
  | (if (?a.1 =? 0)%Z then _ else _) = _ =>
      destruct (a.1 =? 0)%Z; [|done]; set (h := a.2) in Hrun
  end.
  injection Hrun as <- <-. simpl in HD. rewrite lookup_insert_eq in HD.
  injection HD as <-.
  assert (Hw : int_wrap (refcount T + 1) = (refcount T + 1)%Z).
  { apply int_wrap_small. unfold INT_MIN, INT_MAX in *. lia. }
  assert (Hw' : int_wrap (refcount T + 1 - 1) = refcount T).
  { replace (refcount T + 1 - 1)%Z with (refcount T) by lia.
    apply int_wrap_small. unfold INT_MIN, INT_MAX in *. lia. }
  assert (H0 : (refcount T =? 0)%Z = false) by (apply Z.eqb_neq; lia).
  destruct fuel as [|fuel]; [lia|].
  match goal with |- database_free _ _ _ ?x = _ => set (s1 := x) end.
  set (T1 := with_refcount (refcount T + 1) T).
  set (D1 := mkDatabase (TData k t) t h 1).
  assert (Hd1 : dbs s1 !! next s = Some D1) by apply lookup_insert_eq.
  assert (Ht1 : txns s1 !! t = Some T1).
  { subst s1 T1. simpl. by rewrite Hw, lookup_insert_eq. }
  unfold database_free.
  rewrite (bind_Ok _ _ _ _ _ (load_db_Some _ _ _ Hd1)).
  change (open D1 =? 0)%Z with false. cbv iota.
  change (d_transaction D1) with t. change (dbi D1) with h.
  unfold bind at 1.
  rewrite (bind_Ok _ _ _ _ _ (load_txn_Some _ _ _ Ht1)).
  change (environment T1) with (environment T).
  assert (He1 : envs s1 !! environment T = Some E) by done.
  rewrite (bind_Ok _ _ _ _ _ (load_env_Some _ _ _ He1)).
  unfold bind at 1, call, ret.
  set (s2 := set_log (log s1 ++ [mdb_dbi_close (env E) h]) s1).
  assert (Ht2 : txns s2 !! t = Some T1) by done.
  rewrite (bind_Ok _ _ _ _ _
             (transaction_deref_counted fuel s2 t T1 Ht2 ltac:(simpl; lia))).
  unfold free_db, modify, set_dbs, set_txns. simpl.
  rewrite Hw', insert_insert_eq.
  rewrite delete_insert_eq, (delete_id _ _ Hfresh).
  replace (with_refcount (refcount T) T1) with T by (by destruct T).
  by rewrite (insert_id _ _ _ Ht).
Qed.

Lemma database_check_Ok fuel d s D :
  dbs s !! d = Some D → database_check fuel d s = Ok tt s →
  transaction_active fuel (Some (d_transaction D)) s = Ok true s ∧ open D ≠ 0%Z.
Proof.
  intros Hd. unfold database_check.
  rewrite (bind_Ok _ _ _ _ _ (load_db_Some _ _ _ Hd)).
  unfold bind at 1, transaction_check, bind at 1.
  destruct (transaction_active_pure fuel (Some (d_transaction D)) s)
    as [[b ->] | [-> | ->]]; try done.
  destruct b; simpl; [|done].
  destruct (open D =? 0)%Z eqn:Ho; [done|]. intros _.
  split; [done|]. by apply Z.eqb_neq.
Qed.

(** The table handle of a Database is closed once.  [close] hands it to
    the engine with the Environment handle of the remembered
    Transaction and clears [open]; a second [close] raises "Database is
    closed"; and finalizing the Database ends in the same state, with
    the same single [mdb_dbi_close], whether or not it was closed
    before.  Stated for a Transaction that stays referenced. *)
Theorem table_handle_closed_once fuel s d k D T E :
  dbs s !! d = Some D → txns s !! d_transaction D = Some T →
  envs s !! environment T = Some E →
  database_check fuel d s = Ok tt s → int_wrap (refcount T - 1) ≠ 0%Z →
  let t := d_transaction D in
  let closing := mdb_dbi_close (env E) (dbi D) in
  let s1 :=
    mkState (envs s) (txns s)
      (<[d := mkDatabase (d_vtxn D) t (dbi D) 0]> (dbs s))
      (curs s) (next s) (log s ++ [closing]) in
  let freed :=
    mkState (envs s)
      (<[t := with_refcount (int_wrap (refcount T - 1)) T]> (txns s))
      (delete d (dbs s)) (curs s) (next s) (log s ++ [closing]) in
  database_close engine fuel (TData k d) s = Ok Qnil s1
  ∧ database_close engine fuel (TData k d) s1 = database_closed s1
  ∧ database_free engine (S fuel) d s1 = Ok tt freed
  ∧ database_free engine (S fuel) d s = Ok tt freed.
Proof.
  intros Hd Ht He Hchk Hn t closing s1 freed.
  destruct (database_check_Ok fuel d s D Hd Hchk) as [Hact Hopen].
  assert (Ho : (open D =? 0)%Z = false) by (by apply Z.eqb_neq).
  set (D1 := mkDatabase (d_vtxn D) t (dbi D) 0).
  assert (Hd1 : dbs s1 !! d = Some D1) by apply lookup_insert_eq.
  assert (Ht1 : txns s1 !! t = Some T) by done.
  split; [|split; [|split]].
  - unfold database_close.
    rewrite (bind_Ok _ _ _ _ _ (DATABASE_usable fuel k d s Hchk)),
      (bind_Ok _ _ _ _ _ (load_db_Some _ _ _ Hd)),
      (bind_Ok _ _ _ _ _ (load_txn_Some _ _ _ Ht)),
      (bind_Ok _ _ _ _ _ (load_env_Some _ _ _ He)).
    unfold bind, call, store_db, bind, load_db, modify. simpl. by rewrite Hd.
  - unfold database_close. apply bind_Raise.
    unfold DATABASE. simpl. unfold bind at 1. simpl. apply bind_Raise.
    unfold database_check.
    rewrite (bind_Ok _ _ _ _ _ (load_db_Some _ _ _ Hd1)).
    unfold bind, transaction_check, bind.
    change (d_transaction D1) with t.
    rewrite (transaction_active_txns fuel (Some t) s s1) by done.
    fold t in Hact. by rewrite Hact.
  - unfold database_free.
    rewrite (bind_Ok _ _ _ _ _ (load_db_Some _ _ _ Hd1)).
    change (open D1 =? 0)%Z with true. cbv iota.
    unfold bind at 1, ret. change (d_transaction D1) with t.
    rewrite (bind_Ok _ _ _ _ _ (transaction_deref_counted fuel s1 t T Ht1 Hn)).
    unfold free_db, modify, set_dbs, set_txns. simpl.
    by rewrite delete_insert_eq.
  - unfold database_free.
    rewrite (bind_Ok _ _ _ _ _ (load_db_Some _ _ _ Hd)), Ho.
    unfold bind at 1.
    rewrite (bind_Ok _ _ _ _ _ (load_txn_Some _ _ _ Ht)),
      (bind_Ok _ _ _ _ _ (load_env_Some _ _ _ He)).
    unfold bind at 1, call, ret.
    set (s2 := set_log (log s ++ [mdb_dbi_close (env E) (dbi D)]) s).
    assert (Ht2 : txns s2 !! t = Some T) by done.
    fold t.
    rewrite (bind_Ok _ _ _ _ _ (transaction_deref_counted fuel s2 t T Ht2 Hn)).
    done.
Qed.

End DatabaseLifetime.

Lemma opened_database_reports_its_transaction_witness :
  TData cDatabase 2 = TData cDatabase (next s_root)
  ∧ transaction_active 2 (Some 1) s_db = Ok true s_db
  ∧ database_check 2 (next s_root) s_db = Ok tt s_db
  ∧ database_transaction 2 (TData cDatabase 2) s_db = Ok (TData cTransaction 1) s_db.
Proof.
  pose (T1 := mkTransaction (TData cEnvironment 0) 0 Qnil None 1 4).
  exact (opened_database_reports_its_transaction engine_ok 2 s_root 1 cTransaction T1
           "db" [] (TData cDatabase 2) s_db eq_refl eq_refl eq_refl
           (le_S 0 0 (le_n 0)) eq_refl).
Defined.

Lemma opened_database_freed_returns_reference_witness :
  database_free engine_ok 2 (next s_root) s_db =
    Ok tt (mkState (envs s_root) (txns s_root) (dbs s_root) (curs s_root) 3
             (log s_db ++ [mdb_dbi_close 1 5])).
Proof.
  pose (T1 := mkTransaction (TData cEnvironment 0) 0 Qnil None 1 4).
  assert (Hr : (1 ≤ 1 < INT_MAX)%Z) by (unfold INT_MAX; lia).
  exact (opened_database_freed_returns_reference engine_ok 2 s_root 1 cTransaction T1
           (mkEnvironment 1 2) "db" [] (TData cDatabase 2) s_db
           (mkDatabase (TData cTransaction 1) 1 5 1)
           eq_refl eq_refl eq_refl eq_refl (le_S 0 0 (le_n 0)) Hr eq_refl
           (le_S 1 1 (le_n 1)) eq_refl eq_refl).
Defined.

Lemma table_handle_closed_once_witness :
  database_close engine_ok 2 (TData cDatabase 2)
    (exec (database_close engine_ok 2 (TData cDatabase 2)) s_db) =
    database_closed (exec (database_close engine_ok 2 (TData cDatabase 2)) s_db)
  ∧ database_free engine_ok 3 2 s_db =
    database_free engine_ok 3 2
      (exec (database_close engine_ok 2 (TData cDatabase 2)) s_db).
Proof.
  pose (T1 := mkTransaction (TData cEnvironment 0) 0 Qnil None 2 4).
  pose (D2 := mkDatabase (TData cTransaction 1) 1 5 1).
  assert (Hn : int_wrap (refcount T1 - 1) ≠ 0%Z) by discriminate.
  destruct (table_handle_closed_once engine_ok 2 s_db 2 cDatabase D2 T1
              (mkEnvironment 1 2) eq_refl eq_refl eq_refl eq_refl Hn)
    as (Hc & Hc2 & Hf1 & Hf).
  split.
  - unfold exec. rewrite Hc. exact Hc2.
  - unfold exec. rewrite Hc, Hf1. exact Hf.
Defined.

(** ** Opening with a block, and opening that fails *)

Section Opening.

Variable engine : Engine.
Variable NUM2SIZET : VALUE → Exception + Z.


(** When the engine refuses [mdb_env_open] after the handle was created
    and configured, [environment_open] raises the status without running
    the block; the Environment struct stays behind with the handle and
    refcount 1, and releasing that reference (what the finalizer does)
    closes the handle and frees the struct. *)
Theorem failed_open_closes_at_release s path klass blk code :
  has_nul path = false → envs s !! next s = None →
  let e := next s in
  let h := (engine (log s) mdb_env_create).2 in
  let configure := mdb_env_set_maxdbs h 10 in
  let opening := mdb_env_open h path 0 mode_0755 in
  let attempted := log s ++ [mdb_env_create; configure; opening] in
  (engine (log s) mdb_env_create).1 = 0%Z →
  (engine (log s ++ [mdb_env_create]) configure).1 = 0%Z →
  (engine (log s ++ [mdb_env_create; configure]) opening).1 = code →
  code ≠ 0%Z → h ≠ NULL →
  let s1 :=
    mkState (<[e := mkEnvironment h 1]> (envs s)) (txns s) (dbs s) (curs s) (S e)
      attempted in
  environment_open engine NUM2SIZET [RString path] klass blk s =
    Raise (MDBError code) s1
  ∧ environment_deref engine e s1 =
    Ok tt (mkState (envs s) (txns s) (dbs s) (curs s) (S e)
             (attempted ++ [mdb_env_close h])).
Proof.
  intros Hn Hfresh e h configure opening attempted H1 H2 H3 Hcode Hh s1.
  split.
  - unfold environment_open. unfold bind at 1. simpl. unfold bind at 1. simpl.
    unfold bind at 1, call at 1, bind at 1, check. rewrite H1. simpl.
    unfold bind at 1. simpl. unfold bind at 1. simpl.
    unfold bind at 1. simpl. unfold bind at 1. simpl.
    unfold bind at 1, call at 1, bind at 1, check. simpl.
    fold h. fold configure. rewrite H2. simpl.
    rewrite Hn. unfold bind at 1. simpl.
    unfold bind at 1, call at 1, bind at 1, check. simpl.
    rewrite <- app_assoc. simpl. fold opening.
    change (uint_wrap 0) with 0%Z. change (uint_wrap mode_0755) with mode_0755.
    fold opening. rewrite H3.
    apply Z.eqb_neq in Hcode. rewrite Hcode. simpl.
    unfold set_log. simpl. by rewrite <- app_assoc.
  - unfold environment_deref, bind at 1, load_env. simpl.
    rewrite lookup_insert_eq. simpl.
    unfold bind at 1, store_env, bind at 1, load_env. simpl.
    rewrite lookup_insert_eq. simpl. rewrite N_eqb_NULL by done.
    unfold bind, call, free_env, modify, set_envs. simpl.
    rewrite insert_insert_eq, delete_insert_eq, (delete_id _ _ Hfresh). done.
Qed.

End Opening.


Lemma failed_open_closes_at_release_witness :
  environment_open (engine_refusing_open 13) NUM2SIZET_range [RString "/db"] Qnil None
    initial =
    Raise (MDBError 13)
      (mkState (<[0 := mkEnvironment 1 1]> ∅) ∅ ∅ ∅ 1
         [mdb_env_create; mdb_env_set_maxdbs 1 10; mdb_env_open 1 "/db" 0 493])
  ∧ environment_deref (engine_refusing_open 13) 0
      (mkState (<[0 := mkEnvironment 1 1]> ∅) ∅ ∅ ∅ 1
         [mdb_env_create; mdb_env_set_maxdbs 1 10; mdb_env_open 1 "/db" 0 493]) =
    Ok tt (mkState ∅ ∅ ∅ ∅ 1
             [mdb_env_create; mdb_env_set_maxdbs 1 10; mdb_env_open 1 "/db" 0 493;
              mdb_env_close 1]).
Proof.
  assert (Hc : (13 : Z) ≠ 0%Z) by discriminate.
  assert (Hh : (1%N : N) ≠ NULL) by discriminate.
  exact (failed_open_closes_at_release (engine_refusing_open 13) NUM2SIZET_range
           initial "/db" Qnil None 13 eq_refl eq_refl eq_refl eq_refl eq_refl Hc Hh).
Defined.

(** ** Environment flags *)


Section Flags.

Variable engine : Engine.



(** [renew] and [reset] on an active Transaction hand its handle to the
    engine and change nothing else, whatever the engine answers: the
    handle stays set and the Transaction is still active afterwards. *)
Theorem renew_reset_keep_transaction_active fuel s t k T :
  txns s !! t = Some T →
  transaction_active fuel (Some t) s = Ok true s →
  let after request := set_log (log s ++ [request (txn T)]) s in
  transaction_renew engine fuel (TData k t) s = Ok Qnil (after mdb_txn_renew)
  ∧ transaction_reset engine fuel (TData k t) s = Ok Qnil (after mdb_txn_reset)
  ∧ ∀ request,
      transaction_active fuel (Some t) (after request) = Ok true (after request).
Proof.
  intros Ht Hact after.
  pose proof (TRANSACTION_active fuel k t s _ Hact) as HT; simpl in HT.
  unfold transaction_renew, transaction_reset.
  rewrite !(bind_Ok _ _ _ _ _ HT), !(bind_Ok _ _ _ _ _ (load_txn_Some _ _ _ Ht)).
  split; [done|]. split; [done|].
  intros request. rewrite (transaction_active_txns fuel (Some t) s) by done.
  by rewrite Hact.
Qed.

End Flags.



Lemma renew_reset_keep_transaction_active_witness :
  transaction_reset (engine_failing 22) 1 (TData cTransaction 1) s_root =
    Ok Qnil (set_log (log s_root ++ [mdb_txn_reset 4]) s_root)
  ∧ transaction_active 1 (Some 1) (set_log (log s_root ++ [mdb_txn_reset 4]) s_root) =
    Ok true (set_log (log s_root ++ [mdb_txn_reset 4]) s_root).
Proof.
  pose (T1 := mkTransaction (TData cEnvironment 0) 0 Qnil None 1 4).
  destruct (renew_reset_keep_transaction_active (engine_failing 22) 1 s_root 1
              cTransaction T1 eq_refl eq_refl) as (_ & Hreset & Hact).
  split; [exact Hreset | exact (Hact mdb_txn_reset)].
Defined.

(** ** Reasoning about data calls *)

Lemma wbind_Done {A B} (m : W A) (k : A → W B) w a w' :
  m w = Done a w' → wbind m k w = k a w'.
Proof. unfold wbind. by intros ->. Qed.

Lemma wbind_Raised {A B} (m : W A) (k : A → W B) w e w' :
  m w = Raised e w' → wbind m k w = Raised e w'.
Proof. unfold wbind. by intros ->. Qed.

Lemma lift_Ok {A} (m : M A) w a s :
  m (base w) = Ok a s → lift m w = Done a (mkWorld s (data w)).
Proof. unfold lift. by intros ->. Qed.

Lemma lift_Raise {A} (m : M A) w e s :
  m (base w) = Raise e s → lift m w = Raised e (mkWorld s (data w)).
Proof. unfold lift. by intros ->. Qed.

Lemma lift_same {A} (m : M A) w a :
  m (base w) = Ok a (base w) → lift m w = Done a w.
Proof. intros H. rewrite (lift_Ok _ _ _ _ H). by destruct w. Qed.

Lemma lift_raise_same {A} (m : M A) w e :
  m (base w) = Raise e (base w) → lift m w = Raised e w.
Proof. intros H. rewrite (lift_Raise _ _ _ _ H). by destruct w. Qed.

Lemma DATABASE_refused fuel k d s x :
  database_check fuel d s = Raise x s → DATABASE fuel (TData k d) s = Raise x s.
Proof.
  intros Hchk. unfold DATABASE. simpl. unfold bind at 1. simpl.
  by apply bind_Raise.
Qed.

Lemma TRANSACTION_terminated fuel k t s :
  transaction_active fuel (Some t) s = Ok false s →
  TRANSACTION fuel (TData k t) s = terminated s.
Proof. intros H. exact (TRANSACTION_active fuel k t s false H). Qed.

(** ** Guards of the data operations *)

Section DataGuards.

Variable data_engine : DataEngine.

(** Every data operation of a Database first runs the Database's own
    guard (its remembered Transaction must be active and the table open)
    and then the guard of the transaction argument.  When the first
    guard raises, that error is raised; when it passes and the argument
    transaction is not active, "Transaction is terminated" is raised.
    In both cases nothing has reached the engine and nothing changed.
    [put] and [delete] count their arguments before either guard: with
    too few or too many arguments they raise [ArgumentError], whatever
    the guards would have said, and with an accepted count the guards
    decide as for the other operations. *)
Theorem data_operations_guarded fuel w d kd t kt :
  let self := TData kd d in
  let vtxn := TData kt t in
  let s := base w in
  let all_refused (refused : outcome VALUE) :=
    database_stat data_engine fuel self vtxn w = refused
    ∧ (∀ vkey, database_get data_engine fuel self vtxn vkey w = refused)
    ∧ (∀ blk, database_cursor data_engine fuel self vtxn blk w = refused)
    ∧ (∀ vkey vval rest, length rest ≤ 1 →
         database_put data_engine fuel (vtxn :: vkey :: vval :: rest) self w = refused)
    ∧ (∀ vkey rest, length rest ≤ 1 →
         database_delete data_engine fuel (vtxn :: vkey :: rest) self w = refused) in
  (∀ x, database_check fuel d s = Raise x s → all_refused (Raised x w))
  ∧ (database_check fuel d s = Ok tt s →
     transaction_active fuel (Some t) s = Ok false s →
     all_refused (Raised (cError "Transaction is terminated") w))
  ∧ (∀ argv, length argv < 3 ∨ 4 < length argv →
       database_put data_engine fuel argv self w = Raised ArgumentError w)
  ∧ (∀ argv, length argv < 2 ∨ 3 < length argv →
       database_delete data_engine fuel argv self w = Raised ArgumentError w).
Proof.
  intros self vtxn s all_refused.
  assert (Hcount : ∀ req argv, length argv < req ∨ req + 1 < length argv →
    lift (rb_scan_args req 1 argv) w = Raised ArgumentError w).
  { intros req argv Hlen. apply lift_raise_same. unfold rb_scan_args.
    destruct ((length argv <? req) || (req + 1 <? length argv)) eqn:Hc; [done|].
    apply orb_false_elim in Hc as [H1 H2].
    apply Nat.ltb_ge in H1, H2. lia. }
  assert (Hall : ∀ refused,
    (∀ (k : nat → nat → W VALUE),
       (database <~ lift (DATABASE fuel self) ;;
        transaction <~ lift (TRANSACTION fuel vtxn) ;;
        k database transaction) w = refused) →
    all_refused refused).
  { intros refused Hguard.
    split; [apply Hguard|]. split; [intros; apply Hguard|].
    split; [intros; apply Hguard|]. split.
    - intros vkey vval rest Hlen. unfold database_put.
      assert (Hscan : rb_scan_args 3 1 (vtxn :: vkey :: vval :: rest) s =
                Ok (3 + length rest,
                    (vtxn :: vkey :: vval :: rest)
                      ++ replicate (1 - length rest) Qnil) s).
      { unfold rb_scan_args. simpl.
        destruct (4 <? S (S (S (length rest)))) eqn:Hl;
          [apply Nat.ltb_lt in Hl; lia|done]. }
      rewrite (wbind_Done _ _ _ _ _ (lift_same _ _ _ Hscan)). apply Hguard.
    - intros vkey rest Hlen. unfold database_delete.
      assert (Hscan : rb_scan_args 2 1 (vtxn :: vkey :: rest) s =
                Ok (2 + length rest,
                    (vtxn :: vkey :: rest) ++ replicate (1 - length rest) Qnil) s).
      { unfold rb_scan_args. simpl.
        destruct (3 <? S (S (length rest))) eqn:Hl;
          [apply Nat.ltb_lt in Hl; lia|done]. }
      rewrite (wbind_Done _ _ _ _ _ (lift_same _ _ _ Hscan)). apply Hguard. }
  split; [|split; [|split]].
  - intros x Hchk. apply Hall. intros k.
    apply wbind_Raised, lift_raise_same. by apply DATABASE_refused.
  - intros Hchk Hact. apply Hall. intros k.
    rewrite (wbind_Done _ _ _ _ _
               (lift_same _ _ _ (DATABASE_usable fuel kd d s Hchk))).
    apply wbind_Raised, lift_raise_same. by apply TRANSACTION_terminated.
  - intros argv Hlen. unfold database_put. apply wbind_Raised.
    apply (Hcount 3). lia.
  - intros argv Hlen. unfold database_delete. apply wbind_Raised.
    apply (Hcount 2). lia.
Qed.

End DataGuards.

Lemma data_operations_guarded_witness :
  let w := mkWorld (exec (database_close engine_ok 2 (TData cDatabase 2)) s_db) [] in
  database_put data_ok 2 [TData cTransaction 1; RString "k"; RString "v"]
    (TData cDatabase 2) w = Raised (cError "Database is closed") w
  ∧ database_put data_ok 2 [TData cTransaction 1; RString "k"]
      (TData cDatabase 2) w = Raised ArgumentError w
  ∧ database_delete data_ok 2 [TData cTransaction 1]
      (TData cDatabase 2) w = Raised ArgumentError w.
Proof.
  intros w.
  destruct (data_operations_guarded data_ok 2 w 2 cDatabase 1 cTransaction)
    as (H & _ & Hputn & Hdeln).
  destruct (H (cError "Database is closed") eq_refl) as (_ & _ & _ & Hput & _).
  split; [|split].
  - exact (Hput (RString "k") (RString "v") [] (le_S 0 0 (le_n 0))).
  - exact (Hputn [TData cTransaction 1; RString "k"] (or_introl (le_n 3))).
  - exact (Hdeln [TData cTransaction 1] (or_introl (le_n 2))).
Defined.

(** ** Reading and writing through a Database *)

Section DataCalls.

Variable data_engine : DataEngine.

(** The outcome of one checked data call [request] that returns [v]. *)
Lemma data_call_checked {A} w request (v : Reply → A) :
  (r <~ data_call data_engine request ;;
   lift (check (r_status r)) ~;; wret (v r)) w =
  let reply := data_engine (log (base w)) (data w) request in
  let w' := mkWorld (base w) (data w ++ [(length (log (base w)), request)]) in
  if (r_status reply =? 0)%Z then Done (v reply) w'
  else Raised (MDBError (r_status reply)) w'.
Proof.
  unfold wbind, data_call, lift, check. simpl.
  by destruct (r_status _ =? 0)%Z.
Qed.

(** [put] runs in the transaction it is given, which need not be the
    one the Database remembers, on the Database's table handle, with the
    key and value bytes as they are.  The flags are 0 when three
    arguments are given and the fourth argument when four are given; the
    engine's status is raised when it is not 0. *)
Theorem database_put_forwards_flags fuel w d kd D t kt T key value :
  dbs (base w) !! d = Some D → txns (base w) !! t = Some T →
  database_check fuel d (base w) = Ok tt (base w) →
  transaction_active fuel (Some t) (base w) = Ok true (base w) →
  let self := TData kd d in
  let vtxn := TData kt t in
  let answered flags :=
    let request := mdb_put (txn T) (dbi D) key value flags in
    let reply := data_engine (log (base w)) (data w) request in
    let w' := mkWorld (base w) (data w ++ [(length (log (base w)), request)]) in
    if (r_status reply =? 0)%Z then Done Qnil w'
    else Raised (MDBError (r_status reply)) w' in
  database_put data_engine fuel [vtxn; RString key; RString value] self w =
    answered 0%Z
  ∧ (∀ z, (INT_MIN ≤ z ≤ INT_MAX)%Z →
       database_put data_engine fuel
         [vtxn; RString key; RString value; Integer z] self w =
         answered (uint_wrap z)).
Proof.
  intros Hd Ht Hchk Hact self vtxn answered.
  pose proof (lift_same _ w _ (DATABASE_usable fuel kd d _ Hchk)) as HD.
  pose proof (lift_same _ w _ (TRANSACTION_active fuel kt t _ true Hact)) as HT.
  pose proof (lift_same _ w _ (load_txn_Some _ _ _ Ht)) as HlT.
  pose proof (lift_same _ w _ (load_db_Some _ _ _ Hd)) as HlD.
  split; [|intros z Hz]; unfold database_put.
  - rewrite (wbind_Done _ _ w (3, [vtxn; RString key; RString value; Qnil]) w)
      by (by apply lift_same).
    cbv zeta. change (arg 0 _) with vtxn.
    rewrite (wbind_Done _ _ _ _ _ HD), (wbind_Done _ _ _ _ _ HT).
    rewrite (wbind_Done _ _ w key w) by (by apply lift_same).
    rewrite (wbind_Done _ _ w value w) by (by apply lift_same).
    rewrite (wbind_Done _ _ _ _ _ HlT), (wbind_Done _ _ _ _ _ HlD).
    rewrite (wbind_Done _ _ w 0%Z w) by (by apply lift_same).
    change (uint_wrap 0) with 0%Z.
    apply (data_call_checked w _ (fun _ => Qnil)).
  - rewrite (wbind_Done _ _ w (4, [vtxn; RString key; RString value; Integer z]) w)
      by (by apply lift_same).
    cbv zeta. change (arg 0 _) with vtxn.
    rewrite (wbind_Done _ _ _ _ _ HD), (wbind_Done _ _ _ _ _ HT).
    rewrite (wbind_Done _ _ w key w) by (by apply lift_same).
    rewrite (wbind_Done _ _ w value w) by (by apply lift_same).
    rewrite (wbind_Done _ _ _ _ _ HlT), (wbind_Done _ _ _ _ _ HlD).
    rewrite (wbind_Done _ _ w z w).
    + apply (data_call_checked w _ (fun _ => Qnil)).
    + apply lift_same. simpl. unfold NUM2INT.
      assert (Hrange : ((INT_MIN <=? z) && (z <=? INT_MAX))%Z = true).
      { apply andb_true_iff. split; apply Z.leb_le; lia. }
      by rewrite Hrange.
Qed.

(** [delete] with two arguments asks the engine to delete every value
    under the key; with a String as third argument it asks for that
    key/value pair only.  A third argument that is not a String, [nil]
    included, raises [TypeError] before the engine is called. *)
Theorem database_delete_optional_value fuel w d kd D t kt T key :
  dbs (base w) !! d = Some D → txns (base w) !! t = Some T →
  database_check fuel d (base w) = Ok tt (base w) →
  transaction_active fuel (Some t) (base w) = Ok true (base w) →
  let self := TData kd d in
  let vtxn := TData kt t in
  let answered value :=
    let request := mdb_del (txn T) (dbi D) key value in
    let reply := data_engine (log (base w)) (data w) request in
    let w' := mkWorld (base w) (data w ++ [(length (log (base w)), request)]) in
    if (r_status reply =? 0)%Z then Done Qnil w'
    else Raised (MDBError (r_status reply)) w' in
  database_delete data_engine fuel [vtxn; RString key] self w = answered None
  ∧ (∀ value,
       database_delete data_engine fuel [vtxn; RString key; RString value] self w =
         answered (Some value))
  ∧ (∀ vval, (∀ value, vval ≠ RString value) →
       database_delete data_engine fuel [vtxn; RString key; vval] self w =
         Raised TypeError w).
Proof.
  intros Hd Ht Hchk Hact self vtxn answered.
  pose proof (lift_same _ w _ (DATABASE_usable fuel kd d _ Hchk)) as HD.
  pose proof (lift_same _ w _ (TRANSACTION_active fuel kt t _ true Hact)) as HT.
  pose proof (lift_same _ w _ (load_txn_Some _ _ _ Ht)) as HlT.
  pose proof (lift_same _ w _ (load_db_Some _ _ _ Hd)) as HlD.
  split; [|split; [intros value|intros vval Hval]]; unfold database_delete.
  - rewrite (wbind_Done _ _ w (2, [vtxn; RString key; Qnil]) w)
      by (by apply lift_same).
    cbv zeta. change (arg 0 _) with vtxn.
    rewrite (wbind_Done _ _ _ _ _ HD), (wbind_Done _ _ _ _ _ HT).
    rewrite (wbind_Done _ _ w key w) by (by apply lift_same).
    rewrite (wbind_Done _ _ _ _ _ HlT), (wbind_Done _ _ _ _ _ HlD).
    change ((2, [vtxn; RString key; Qnil]).1 =? 3) with false. cbv iota.
    unfold wbind, data_call, lift, check. simpl.
    subst answered. simpl. by destruct (r_status _ =? 0)%Z.
  - rewrite (wbind_Done _ _ w (3, [vtxn; RString key; RString value]) w)
      by (by apply lift_same).
    cbv zeta. change (arg 0 _) with vtxn.
    rewrite (wbind_Done _ _ _ _ _ HD), (wbind_Done _ _ _ _ _ HT).
    rewrite (wbind_Done _ _ w key w) by (by apply lift_same).
    rewrite (wbind_Done _ _ _ _ _ HlT), (wbind_Done _ _ _ _ _ HlD).
    change ((3, [vtxn; RString key; RString value]).1 =? 3) with true. cbv iota.
    unfold wbind, data_call, lift, check. simpl.
    subst answered. simpl. by destruct (r_status _ =? 0)%Z.
  - rewrite (wbind_Done _ _ w (3, [vtxn; RString key; vval]) w)
      by (by apply lift_same).
    cbv zeta. change (arg 0 _) with vtxn.
    rewrite (wbind_Done _ _ _ _ _ HD), (wbind_Done _ _ _ _ _ HT).
    rewrite (wbind_Done _ _ w key w) by (by apply lift_same).
    rewrite (wbind_Done _ _ _ _ _ HlT), (wbind_Done _ _ _ _ _ HlD).
    change ((3, [vtxn; RString key; vval]).1 =? 3) with true. cbv iota.
    change (arg 2 _) with vval.
    apply wbind_Raised, wbind_Raised, lift_raise_same.
    destruct vval; try done. by destruct (Hval s).
Qed.

(** [get] returns the bytes the engine points to, as they are, when the
    engine's status is 0, and raises the status otherwise (a missing key
    is such a status): no String is built from a failed lookup.  A key
    that is not a String raises [TypeError] before the engine is
    called.  The program state is never changed. *)
Theorem database_get_returns_engine_bytes fuel w d kd D t kt T :
  dbs (base w) !! d = Some D → txns (base w) !! t = Some T →
  database_check fuel d (base w) = Ok tt (base w) →
  transaction_active fuel (Some t) (base w) = Ok true (base w) →
  let self := TData kd d in
  let vtxn := TData kt t in
  (∀ key,
     let request := mdb_get (txn T) (dbi D) key in
     let reply := data_engine (log (base w)) (data w) request in
     let w' := mkWorld (base w) (data w ++ [(length (log (base w)), request)]) in
     database_get data_engine fuel self vtxn (RString key) w =
       if (r_status reply =? 0)%Z then Done (RString (r_bytes reply)) w'
       else Raised (MDBError (r_status reply)) w')
  ∧ (∀ vkey, (∀ key, vkey ≠ RString key) →
       database_get data_engine fuel self vtxn vkey w = Raised TypeError w).
Proof.
  intros Hd Ht Hchk Hact self vtxn.
  pose proof (lift_same _ w _ (DATABASE_usable fuel kd d _ Hchk)) as HD.
  pose proof (lift_same _ w _ (TRANSACTION_active fuel kt t _ true Hact)) as HT.
  pose proof (lift_same _ w _ (load_txn_Some _ _ _ Ht)) as HlT.
  pose proof (lift_same _ w _ (load_db_Some _ _ _ Hd)) as HlD.
  split.
  - intros key request reply w'. unfold database_get.
    rewrite (wbind_Done _ _ _ _ _ HD), (wbind_Done _ _ _ _ _ HT).
    rewrite (wbind_Done _ _ w key w) by (by apply lift_same).
    rewrite (wbind_Done _ _ _ _ _ HlT), (wbind_Done _ _ _ _ _ HlD).
    apply (data_call_checked w _ (fun r => RString (r_bytes r))).
  - intros vkey Hkey. unfold database_get.
    rewrite (wbind_Done _ _ _ _ _ HD), (wbind_Done _ _ _ _ _ HT).
    apply wbind_Raised, lift_raise_same.
    destruct vkey; try done. by destruct (Hkey s).
Qed.

End DataCalls.

Lemma database_put_forwards_flags_witness :
  database_put data_ok 2
    [TData cTransaction 1; RString "k"; RString "v"; Integer 16]
    (TData cDatabase 2) (mkWorld s_db []) =
    Done Qnil (mkWorld s_db [(5, mdb_put 4 5 "k" "v" 16)]).
Proof.
  pose (T1 := mkTransaction (TData cEnvironment 0) 0 Qnil None 2 4).
  pose (D2 := mkDatabase (TData cTransaction 1) 1 5 1).
  assert (Hz : (INT_MIN ≤ 16 ≤ INT_MAX)%Z) by (unfold INT_MIN, INT_MAX; lia).
  destruct (database_put_forwards_flags data_ok 2 (mkWorld s_db []) 2 cDatabase D2 1
              cTransaction T1 "k" "v" eq_refl eq_refl eq_refl eq_refl) as [_ H].
  exact (H 16%Z Hz).
Defined.

Lemma database_delete_optional_value_witness :
  database_delete data_ok 2 [TData cTransaction 1; RString "k"]
    (TData cDatabase 2) (mkWorld s_db []) =
    Done Qnil (mkWorld s_db [(5, mdb_del 4 5 "k" None)])
  ∧ database_delete data_ok 2 [TData cTransaction 1; RString "k"; RString "v"]
      (TData cDatabase 2) (mkWorld s_db []) =
    Done Qnil (mkWorld s_db [(5, mdb_del 4 5 "k" (Some "v"))])
  ∧ database_delete data_ok 2 [TData cTransaction 1; RString "k"; Qnil]
      (TData cDatabase 2) (mkWorld s_db []) = Raised TypeError (mkWorld s_db [])
  ∧ database_delete data_ok 2 [TData cTransaction 1; RString "k"; Integer 5]
      (TData cDatabase 2) (mkWorld s_db []) = Raised TypeError (mkWorld s_db []).
Proof.
  pose (T1 := mkTransaction (TData cEnvironment 0) 0 Qnil None 2 4).
  pose (D2 := mkDatabase (TData cTransaction 1) 1 5 1).
  destruct (database_delete_optional_value data_ok 2 (mkWorld s_db []) 2 cDatabase D2
              1 cTransaction T1 "k" eq_refl eq_refl eq_refl eq_refl) as (H2 & H3 & Hn).
  split; [exact H2|]. split; [exact (H3 "v")|]. split.
  - exact (Hn Qnil ltac:(discriminate)).
  - exact (Hn (Integer 5) ltac:(discriminate)).
Defined.

Lemma database_get_returns_engine_bytes_witness :
  database_get data_ok 2 (TData cDatabase 2) (TData cTransaction 1) (RString "k")
    (mkWorld s_db []) =
    Done (RString "stored") (mkWorld s_db [(5, mdb_get 4 5 "k")])
  ∧ database_get (data_failing (-30798)) 2 (TData cDatabase 2) (TData cTransaction 1)
      (RString "k") (mkWorld s_db []) =
    Raised (MDBError (-30798)) (mkWorld s_db [(5, mdb_get 4 5 "k")]).
Proof.
  pose (T1 := mkTransaction (TData cEnvironment 0) 0 Qnil None 2 4).
  pose (D2 := mkDatabase (TData cTransaction 1) 1 5 1).
  destruct (database_get_returns_engine_bytes data_ok 2 (mkWorld s_db []) 2 cDatabase
              D2 1 cTransaction T1 eq_refl eq_refl eq_refl eq_refl) as [Hok _].
  destruct (database_get_returns_engine_bytes (data_failing (-30798)) 2
              (mkWorld s_db []) 2 cDatabase D2 1 cTransaction T1
              eq_refl eq_refl eq_refl eq_refl) as [Hko _].
  exact (conj (Hok "k") (Hko "k")).
Defined.

(** ** Cursors *)

Lemma cursor_check_Ok fuel c s C :
  curs s !! c = Some C → cursor_check fuel c s = Ok tt s →
  transaction_active fuel (Some (c_transaction C)) s = Ok true s ∧ cur C ≠ NULL.
Proof.
  intros Hc. unfold cursor_check, bind at 1, load_cur. rewrite Hc.
  unfold bind at 1, transaction_check, bind at 1.
  destruct (transaction_active_pure fuel (Some (c_transaction C)) s)
    as [[b ->] | [-> | ->]]; try done.
  destruct b; simpl; [|done].
  destruct (cur C =? NULL)%N eqn:Ho; [done|]. intros _.
  split; [done|]. by apply N.eqb_neq.
Qed.

Lemma CURSOR_usable fuel k c s :
  cursor_check fuel c s = Ok tt s → CURSOR fuel (TData k c) s = Ok c s.
Proof.
  intros Hchk. unfold CURSOR. simpl. unfold bind at 1. simpl.
  by rewrite (bind_Ok _ _ _ _ _ Hchk).
Qed.

Lemma CURSOR_refused fuel k c s x :
  cursor_check fuel c s = Raise x s → CURSOR fuel (TData k c) s = Raise x s.
Proof.
  intros Hchk. unfold CURSOR. simpl. unfold bind at 1. simpl.
  by apply bind_Raise.
Qed.

(** The guard of the Cursor methods: when the remembered Transaction is
    not active they raise "Transaction is terminated", also on a closed
    Cursor; on an active Transaction a closed Cursor raises "Cursor is
    closed".  On a usable Cursor [transaction] returns the remembered
    object, while [get] and [put] return [nil] and do nothing else: they
    read nothing, store nothing and never reach the engine. *)
Theorem cursor_methods_guarded fuel s c k C :
  curs s !! c = Some C →
  let self := TData k c in
  let all_raise (r : result VALUE) :=
    cursor_transaction fuel self s = r ∧ cursor_get fuel self s = r
    ∧ cursor_put fuel self s = r in
  (transaction_active fuel (Some (c_transaction C)) s = Ok false s →
     all_raise (terminated s))
  ∧ (transaction_active fuel (Some (c_transaction C)) s = Ok true s →
     cur C = NULL → all_raise (cursor_closed s))
  ∧ (transaction_active fuel (Some (c_transaction C)) s = Ok true s →
     cur C ≠ NULL →
     cursor_transaction fuel self s = Ok (c_vtxn C) s
     ∧ cursor_get fuel self s = Ok Qnil s
     ∧ cursor_put fuel self s = Ok Qnil s).
Proof.
  intros Hc self all_raise.
  assert (Hchk : ∀ b, transaction_active fuel (Some (c_transaction C)) s = Ok b s →
    cursor_check fuel c s =
      if b then (if (cur C =? NULL)%N then cursor_closed s else Ok tt s)
      else terminated s).
  { intros b Hact. unfold cursor_check, bind at 1, load_cur. rewrite Hc.
    unfold bind at 1, transaction_check, bind at 1. rewrite Hact.
    destruct b; [|done]. simpl. by destruct (cur C =? NULL)%N. }
  unfold all_raise, cursor_transaction, cursor_get, cursor_put.
  split; [|split].
  - intros Hact. pose proof (CURSOR_refused fuel k c s _ (Hchk false Hact)) as HC.
    repeat split; apply bind_Raise; exact HC.
  - intros Hact Hn. specialize (Hchk true Hact). simpl in Hchk.
    rewrite Hn in Hchk. simpl in Hchk.
    pose proof (CURSOR_refused fuel k c s _ Hchk) as HC.
    repeat split; apply bind_Raise; exact HC.
  - intros Hact Hn. specialize (Hchk true Hact). simpl in Hchk.
    rewrite N_eqb_NULL in Hchk by done.
    pose proof (CURSOR_usable fuel k c s Hchk) as HC.
    rewrite !(bind_Ok _ _ _ _ _ HC).
    unfold bind, load_cur. by rewrite Hc.
Qed.

Lemma cursor_methods_guarded_witness :
  cursor_transaction 2 (TData cCursor 3) (base w_cursor) =
    Ok (TData cTransaction 1) (base w_cursor)
  ∧ cursor_put 2 (TData cCursor 3) (base w_cursor) = Ok Qnil (base w_cursor).
Proof.
  pose (C3 := mkCursor (TData cTransaction 1) 1 100).
  assert (Hh : cur C3 ≠ NULL) by discriminate.
  destruct (cursor_methods_guarded 2 (base w_cursor) 3 cCursor C3 eq_refl)
    as (_ & _ & H).
  destruct (H eq_refl Hh) as (Ht & _ & Hp).
  exact (conj Ht Hp).
Defined.

Section CursorLifetime.

Variable engine : Engine.
Variable data_engine : DataEngine.

Lemma database_cursor_run fuel w d kd D t kt T blk :
  dbs (base w) !! d = Some D → txns (base w) !! t = Some T →
  database_check fuel d (base w) = Ok tt (base w) →
  transaction_active fuel (Some t) (base w) = Ok true (base w) →
  let s := base w in
  let vtxn := TData kt t in
  let request := mdb_cursor_open (txn T) (dbi D) in
  let reply := data_engine (log s) (data w) request in
  let recorded := data w ++ [(length (log s), request)] in
  let c := next s in
  let opened :=
    mkWorld
      (mkState (envs s)
         (<[t := with_refcount (int_wrap (refcount T + 1)) T]> (txns s)) (dbs s)
         (<[c := mkCursor vtxn t (r_out reply)]> (curs s)) (S c) (log s))
      recorded in
  database_cursor data_engine fuel (TData kd d) vtxn blk w =
    if (r_status reply =? 0)%Z then
      match blk with
      | Some b => w_rb_ensure b (TData cCursor c) (cursor_close data_engine fuel) opened
      | None => Done (TData cCursor c) opened
      end
    else Raised (MDBError (r_status reply)) (mkWorld s recorded).
Proof.
  intros Hd Ht Hchk Hact s vtxn request reply recorded c opened.
  pose proof (lift_same _ w _ (DATABASE_usable fuel kd d _ Hchk)) as HD.
  pose proof (lift_same _ w _ (TRANSACTION_active fuel kt t _ true Hact)) as HT.
  pose proof (lift_same _ w _ (load_txn_Some _ _ _ Ht)) as HlT.
  pose proof (lift_same _ w _ (load_db_Some _ _ _ Hd)) as HlD.
  unfold database_cursor.
  rewrite (wbind_Done _ _ _ _ _ HD), (wbind_Done _ _ _ _ _ HT),
    (wbind_Done _ _ _ _ _ HlT), (wbind_Done _ _ _ _ _ HlD).
  unfold wbind at 1, data_call. fold s request reply recorded.
  unfold wbind at 1, lift at 1, check. simpl base.
  destruct (r_status reply =? 0)%Z; simpl; [|done].
  unfold wbind at 1, lift at 1, alloc. simpl.
  unfold wbind at 1, lift at 1, modify. simpl.
  unfold wbind at 1, lift at 1, store_txn, bind, load_txn, modify. simpl.
  unfold s. rewrite Ht. simpl. by destruct blk.
Qed.

(** Opening a Cursor without a block: the engine is asked for a cursor
    on the Database's table in the transaction given; when it accepts,
    the Cursor struct remembers that transaction, whose refcount grows
    by one, and nothing else changes; when it refuses, its status is
    raised and nothing is allocated or counted.  The new Cursor, if its
    handle is set, is usable and its [transaction] is the object
    given. *)
Theorem database_cursor_opens fuel w d kd D t kt T :
  dbs (base w) !! d = Some D → txns (base w) !! t = Some T →
  database_check fuel d (base w) = Ok tt (base w) →
  transaction_active fuel (Some t) (base w) = Ok true (base w) →
  let s := base w in
  let vtxn := TData kt t in
  let request := mdb_cursor_open (txn T) (dbi D) in
  let reply := data_engine (log s) (data w) request in
  let recorded := data w ++ [(length (log s), request)] in
  let c := next s in
  let s1 :=
    mkState (envs s)
      (<[t := with_refcount (int_wrap (refcount T + 1)) T]> (txns s)) (dbs s)
      (<[c := mkCursor vtxn t (r_out reply)]> (curs s)) (S c) (log s) in
  database_cursor data_engine fuel (TData kd d) vtxn None w =
    (if (r_status reply =? 0)%Z then Done (TData cCursor c) (mkWorld s1 recorded)
     else Raised (MDBError (r_status reply)) (mkWorld s recorded))
  ∧ (r_out reply ≠ NULL →
     cursor_check fuel c s1 = Ok tt s1
     ∧ cursor_transaction fuel (TData cCursor c) s1 = Ok vtxn s1).
Proof.
  intros Hd Ht Hchk Hact s vtxn request reply recorded c s1.
  split; [by apply database_cursor_run|].
  intros Hout.
  assert (Hact1 : transaction_active fuel (Some t) s1 = Ok true s1).
  { rewrite (transaction_active_links fuel (Some t) s s1); [by fold s in Hact; rewrite Hact|].
    intros a. subst s1. simpl.
    destruct (decide (t = a)) as [<-|Hne].
    - rewrite lookup_insert_eq. fold s in Ht. by rewrite Ht.
    - by rewrite lookup_insert_ne. }
  assert (Hc1 : cursor_check fuel c s1 = Ok tt s1).
  { unfold cursor_check, bind at 1, load_cur. simpl. rewrite lookup_insert_eq.
    unfold bind at 1, transaction_check, bind at 1. simpl.
    rewrite Hact1. simpl. by rewrite N_eqb_NULL. }
  split; [done|].
  unfold cursor_transaction.
  rewrite (bind_Ok _ _ _ _ _ (CURSOR_usable fuel cCursor c s1 Hc1)).
  unfold bind, load_cur. simpl. by rewrite lookup_insert_eq.
Qed.

Lemma cursor_close_run fuel w c k C :
  curs (base w) !! c = Some C →
  cursor_check fuel c (base w) = Ok tt (base w) →
  let s := base w in
  cursor_close data_engine fuel (TData k c) w =
    Done Qnil
      (mkWorld
         (mkState (envs s) (txns s) (dbs s)
            (<[c := mkCursor (c_vtxn C) (c_transaction C) NULL]> (curs s))
            (next s) (log s))
         (data w ++ [(length (log s), mdb_cursor_close (cur C))])).
Proof.
  intros Hc Hchk s. unfold cursor_close.
  rewrite (wbind_Done _ _ _ _ _ (lift_same _ w _ (CURSOR_usable fuel k c _ Hchk))).
  rewrite (wbind_Done _ _ w C w).
  - unfold wbind, data_call, lift, store_cur, bind, load_cur, modify. simpl.
    unfold s. by rewrite Hc.
  - apply lift_same. unfold load_cur. by rewrite Hc.
Qed.

(** The engine's cursor is closed once.  [close] on a usable Cursor
    hands the handle to the engine and nulls it; a second [close] raises
    "Cursor is closed"; and finalizing the Cursor returns the reference
    it held on its Transaction, frees the struct, and ends in the same
    state with the same single [mdb_cursor_close] whether or not the
    Cursor was closed before.  Stated for a Transaction that stays
    referenced. *)
Theorem cursor_handle_closed_once fuel w c k C T :
  curs (base w) !! c = Some C → txns (base w) !! c_transaction C = Some T →
  cursor_check fuel c (base w) = Ok tt (base w) →
  int_wrap (refcount T - 1) ≠ 0%Z →
  let s := base w in
  let t := c_transaction C in
  let recorded := data w ++ [(length (log s), mdb_cursor_close (cur C))] in
  let w1 :=
    mkWorld
      (mkState (envs s) (txns s) (dbs s)
         (<[c := mkCursor (c_vtxn C) t NULL]> (curs s)) (next s) (log s))
      recorded in
  let freed :=
    mkWorld
      (mkState (envs s)
         (<[t := with_refcount (int_wrap (refcount T - 1)) T]> (txns s)) (dbs s)
         (delete c (curs s)) (next s) (log s))
      recorded in
  cursor_close data_engine fuel (TData k c) w = Done Qnil w1
  ∧ cursor_close data_engine fuel (TData k c) w1 =
      Raised (cError "Cursor is closed") w1
  ∧ cursor_free engine data_engine (S fuel) c w1 = Done tt freed
  ∧ cursor_free engine data_engine (S fuel) c w = Done tt freed.
Proof.
  intros Hc Ht Hchk Hn s t recorded w1 freed.
  destruct (cursor_check_Ok fuel c s C Hc Hchk) as [Hact Hcur].
  split; [by apply cursor_close_run|]. split; [|split].
  - unfold cursor_close. apply wbind_Raised, lift_raise_same.
    apply CURSOR_refused. unfold cursor_check, bind at 1, load_cur. simpl.
    rewrite lookup_insert_eq.
    unfold bind at 1, transaction_check, bind at 1. simpl.
    rewrite (transaction_active_txns fuel (Some t) s) by done.
    fold t in Hact. by rewrite Hact.
  - unfold cursor_free.
    rewrite (wbind_Done _ _ w1 (mkCursor (c_vtxn C) t NULL) w1).
    2:{ apply lift_same. unfold load_cur. simpl. by rewrite lookup_insert_eq. }
    change (cur (mkCursor (c_vtxn C) t NULL) =? NULL)%N with true. cbv iota.
    unfold wbind at 1, wret.
    change (c_transaction (mkCursor (c_vtxn C) t NULL)) with t.
    assert (Ht1 : txns (base w1) !! t = Some T) by done.
    rewrite (wbind_Done _ _ _ _ _
               (lift_Ok _ _ _ _ (transaction_deref_counted engine fuel _ t T Ht1 Hn))).
    unfold lift, free_cur, modify, set_curs, set_txns. simpl.
    by rewrite delete_insert_eq.
  - unfold cursor_free.
    rewrite (wbind_Done _ _ w C w).
    2:{ apply lift_same. unfold load_cur. by rewrite Hc. }
    rewrite N_eqb_NULL by done.
    unfold wbind at 1, wbind at 1, data_call, wret. fold s t recorded.
    assert (Ht1 : txns (base (mkWorld s recorded)) !! t = Some T) by done.
    rewrite (wbind_Done _ _ _ _ _
               (lift_Ok _ _ _ _ (transaction_deref_counted engine fuel _ t T Ht1 Hn))).
    unfold lift, free_cur, modify, set_curs, set_txns. simpl. done.
Qed.

(** A Cursor opened with a block: after the block, the ensured [close]
    runs the Cursor's guard first.  When the guard passes, the cursor is
    closed and the block's outcome, value or exception, stands.  When
    the guard raises (the block closed the Cursor, or ended its
    Transaction), that error takes the place of the block's outcome and
    the Cursor is left as the block left it. *)
Theorem database_cursor_block_closes fuel w d kd D t kt T b :
  dbs (base w) !! d = Some D → txns (base w) !! t = Some T →
  database_check fuel d (base w) = Ok tt (base w) →
  transaction_active fuel (Some t) (base w) = Ok true (base w) →
  let s := base w in
  let vtxn := TData kt t in
  let request := mdb_cursor_open (txn T) (dbi D) in
  let reply := data_engine (log s) (data w) request in
  r_status reply = 0%Z →
  let c := next s in
  let vcur := TData cCursor c in
  let entry :=
    mkWorld
      (mkState (envs s)
         (<[t := with_refcount (int_wrap (refcount T + 1)) T]> (txns s)) (dbs s)
         (<[c := mkCursor vtxn t (r_out reply)]> (curs s)) (S c) (log s))
      (data w ++ [(length (log s), request)]) in
  ∀ w2 C2, curs (base w2) !! c = Some C2 →
    let s2 := base w2 in
    let shut :=
      mkWorld
        (mkState (envs s2) (txns s2) (dbs s2)
           (<[c := mkCursor (c_vtxn C2) (c_transaction C2) NULL]> (curs s2))
           (next s2) (log s2))
        (data w2 ++ [(length (log s2), mdb_cursor_close (cur C2))]) in
    let run := database_cursor data_engine fuel (TData kd d) vtxn (Some b) w in
    (cursor_check fuel c s2 = Ok tt s2 →
       (∀ r, b vcur entry = Done r w2 → run = Done r shut)
       ∧ (∀ x, b vcur entry = Raised x w2 → run = Raised x shut))
    ∧ (∀ y, cursor_check fuel c s2 = Raise y s2 →
       (∀ r, b vcur entry = Done r w2 → run = Raised y w2)
       ∧ (∀ x, b vcur entry = Raised x w2 → run = Raised y w2)).
Proof.
  intros Hd Ht Hchk Hact s vtxn request reply Hstatus c vcur entry w2 C2 Hc2 s2
    shut run.
  assert (Hrun : run = w_rb_ensure b vcur (cursor_close data_engine fuel) entry).
  { subst run.
    pose proof (database_cursor_run fuel w d kd D t kt T (Some b) Hd Ht Hchk Hact)
      as H.
    cbv zeta in H. unfold reply, request, s in Hstatus.
    rewrite Hstatus in H. exact H. }
  rewrite Hrun. unfold w_rb_ensure. split.
  - intros Hok.
    assert (Hclose : cursor_close data_engine fuel vcur w2 = Done Qnil shut)
      by exact (cursor_close_run fuel w2 c cCursor C2 Hc2 Hok).
    split; intros ? Hb; rewrite Hb; unfold wbind; by rewrite Hclose.
  - intros y Hko.
    assert (Hclose : cursor_close data_engine fuel vcur w2 = Raised y w2).
    { unfold cursor_close. apply wbind_Raised, lift_raise_same.
      by apply CURSOR_refused. }
    split; intros ? Hb; rewrite Hb; unfold wbind; by rewrite Hclose.
Qed.

End CursorLifetime.

Lemma database_cursor_opens_witness :
  database_cursor data_ok 2 (TData cDatabase 2) (TData cTransaction 1) None
    (mkWorld s_db []) = Done (TData cCursor 3) w_cursor
  ∧ cursor_transaction 2 (TData cCursor 3) (base w_cursor) =
    Ok (TData cTransaction 1) (base w_cursor).
Proof.
  pose (T1 := mkTransaction (TData cEnvironment 0) 0 Qnil None 2 4).
  pose (D2 := mkDatabase (TData cTransaction 1) 1 5 1).
  assert (Hh : (100%N : N) ≠ NULL) by discriminate.
  destruct (database_cursor_opens data_ok 2 (mkWorld s_db []) 2 cDatabase D2 1
              cTransaction T1 eq_refl eq_refl eq_refl eq_refl) as [Hrun Hnew].
  destruct (Hnew Hh) as [_ Htxn].
  exact (conj Hrun Htxn).
Defined.

Lemma cursor_handle_closed_once_witness :
  cursor_close data_ok 2 (TData cCursor 3) w_cursor =
    Done Qnil
      (mkWorld (set_curs (insert 3 (mkCursor (TData cTransaction 1) 1 NULL))
                  (base w_cursor))
         (data w_cursor ++ [(5, mdb_cursor_close 100)]))
  ∧ cursor_free engine_ok data_ok 3 3 w_cursor =
    Done tt
      (mkWorld (mkState (envs s_db) (txns s_db) (dbs s_db) (curs s_db) 4 (log s_db))
         (data w_cursor ++ [(5, mdb_cursor_close 100)])).
Proof.
  pose (T1 := mkTransaction (TData cEnvironment 0) 0 Qnil None 3 4).
  pose (C3 := mkCursor (TData cTransaction 1) 1 100).
  assert (Hn : int_wrap (refcount T1 - 1) ≠ 0%Z) by discriminate.
  destruct (cursor_handle_closed_once engine_ok data_ok 2 w_cursor 3 cCursor C3 T1
              eq_refl eq_refl eq_refl Hn) as (Hclose & _ & _ & Hfree).
  exact (conj Hclose Hfree).
Defined.

Lemma database_cursor_block_closes_witness :
  database_cursor data_ok 2 (TData cDatabase 2) (TData cTransaction 1)
    (Some (cursor_close data_ok 2)) (mkWorld s_db []) =
    Raised (cError "Cursor is closed")
      (mkWorld (set_curs (insert 3 (mkCursor (TData cTransaction 1) 1 NULL))
                  (base w_cursor))
         (data w_cursor ++ [(5, mdb_cursor_close 100)])).
Proof.
  pose (T1 := mkTransaction (TData cEnvironment 0) 0 Qnil None 2 4).
  pose (D2 := mkDatabase (TData cTransaction 1) 1 5 1).
  pose (w2 := mkWorld (set_curs (insert 3 (mkCursor (TData cTransaction 1) 1 NULL))
                         (base w_cursor))
                (data w_cursor ++ [(5, mdb_cursor_close 100)])).
  destruct (database_cursor_block_closes data_ok 2 (mkWorld s_db []) 2 cDatabase D2 1
              cTransaction T1 (cursor_close data_ok 2)
              eq_refl eq_refl eq_refl eq_refl eq_refl
              w2 (mkCursor (TData cTransaction 1) 1 NULL) eq_refl) as [_ H].
  destruct (H (cError "Cursor is closed") eq_refl) as [Hdone _].
  exact (Hdone Qnil eq_refl).
Defined.
